(** * RosterView: the activity sign-up page controller ([src/static/app.js])

    A shallow embedding of the page script.  The script is one
    [DOMContentLoaded] callback holding three asynchronous routines
    ([fetchActivities], the submit handler of the sign-up form and
    [unregisterParticipant]).  Each routine is embedded in two halves, split at
    its [await]: the part that runs synchronously and issues the request, and
    the continuation that runs when the network answers.  The answer of the
    network is an argument of the continuation.

    Modelling conventions.
    - Strings are byte strings.  A JS string is represented by its UTF-8
      encoding, where a lone surrogate is written as the three bytes of its
      code point (the first is [0xED], the second lies in [0xA0]-[0xBF]).
    - A number inside a decoded JSON document is named by the numeral that
      Number-to-string prints for it; the script only prints such numbers and
      tests them for zero.
    - [max_participants] is an integer ([Z]).  JS computes on doubles: the
      subtraction and the printing of [Z] agree with it on the safe integers
      (magnitude below 2^53), and the statements that depend on the count
      carry that range as a hypothesis.
    - The page state is threaded explicitly; a statement that can throw lives
      in the monad [M], which keeps the state reached when the exception was
      raised, as a JS [try]/[catch] does. *)

From Stdlib Require Import List String Ascii ZArith Bool Lia.
From Stdlib Require Import DecimalString DecimalZ DecimalPos.
Import ListNotations.

Set Warnings "-register-all".

Local Open Scope string_scope.
Local Open Scope Z_scope.

(** ** JavaScript values *)

Module Js.

(** The newline of a template literal. *)
Definition nl : string := String (ascii_of_nat 10) "".

(** Number-to-string conversion of an integer-valued number. *)
Definition string_of_Z (z : Z) : string :=
  NilZero.string_of_int (Z.to_int z).

(** A decoded JSON document.  [JNum] carries the numeral that JS prints for
    the number ([3], [-2.5], [1e+21]).  [JObj] lists the own properties of
    the object in enumeration order, with distinct keys. *)
Inductive json : Type :=
| JNull
| JBool (b : bool)
| JNum (numeral : string)
| JStr (s : string)
| JArr (items : list json)
| JObj (fields : list (string * json)).

(** A JS value read out of a JSON document: [None] is [undefined]. *)
Definition value : Type := option json.

(** Exceptions: the constructor name and the message. *)
Record exn : Type := Exn { exn_name : string; exn_message : string }.

Fixpoint assoc (key : string) (fields : list (string * json)) : value :=
  match fields with
  | [] => None
  | (k, v) :: rest => if String.eqb k key then Some v else assoc key rest
  end.

(** [result.key] for a key that no prototype defines (such as [message]
    and [detail]): reading a property of [null] throws, an object yields
    its own property, every other value yields [undefined]. *)
Definition get_prop (result : json) (key : string) : exn + value :=
  match result with
  | JNull =>
      inl (Exn "TypeError" ("Cannot read properties of null (reading '" ++ key ++ "')"))
  | JObj fields => inr (assoc key fields)
  | _ => inr None
  end.

(** ToBoolean.  The numeral of both zeros is [0]; a JSON document holds no
    NaN. *)
Definition truthy (v : value) : bool :=
  match v with
  | None => false
  | Some JNull => false
  | Some (JBool b) => b
  | Some (JNum numeral) => negb (String.eqb numeral "0")
  | Some (JStr s) => negb (String.eqb s "")
  | Some (JArr _) => true
  | Some (JObj _) => true
  end.

(** [v || fallback] with a string literal on the right. *)
Definition or_else (v : value) (fallback : string) : value :=
  if truthy v then v else Some (JStr fallback).

Definition join (sep : string) (parts : list string) : string :=
  match parts with
  | [] => ""
  | p :: rest => fold_left (fun acc q => acc ++ sep ++ q) rest p
  end.

Definition not_primitive : exn :=
  Exn "TypeError" "Cannot convert object to primitive value".

(** ToString.  An array is the comma-join of its elements, converted from
    left to right, where [null] contributes the empty string.  An object is
    converted through its [toString] property: that of the prototype yields
    [[object Object]], but an own property of that name, which in a decoded
    document is never a function, leaves no way to a primitive and the
    conversion throws. *)
Fixpoint to_string (j : json) : exn + string :=
  match j with
  | JNull => inr "null"
  | JBool true => inr "true"
  | JBool false => inr "false"
  | JNum numeral => inr numeral
  | JStr s => inr s
  | JArr items =>
      match
        (fix elements (xs : list json) : exn + list string :=
           match xs with
           | [] => inr []
           | x :: rest =>
               match (match x with JNull => inr "" | _ => to_string x end) with
               | inl error => inl error
               | inr s =>
                   match elements rest with
                   | inl error => inl error
                   | inr ss => inr (s :: ss)
                   end
               end
           end) items
      with
      | inl error => inl error
      | inr parts => inr (join "," parts)
      end
  | JObj fields =>
      match assoc "toString" fields with
      | Some _ => inl not_primitive
      | None => inr "[object Object]"
      end
  end.

(** The string that the [textContent] setter stores for a value: [null]
    and [undefined] act as the empty string, every other value is converted
    with ToString, which can throw. *)
Definition text_of (v : value) : exn + string :=
  match v with
  | None => inr ""
  | Some JNull => inr ""
  | Some j => to_string j
  end.

End Js.
Export Js.

(** ** The document *)

Module Dom.

(** What a click on a rendered control runs: the closure stored in
    [deleteBtn.onclick], which calls [unregisterParticipant(name, email)]. *)
Inductive Action : Type :=
| UnregisterParticipant (activity email : string).

(** A DOM node.  [Text s] is a text node, as the [textContent] setter
    creates it: its characters are data and are never parsed.  [Html src]
    stands for the nodes that the HTML parser builds from the source [src]
    assigned to [innerHTML]: tags and entities in [src] become elements. *)
Inductive node : Type :=
| Text (data : string)
| Html (src : string)
| Elem (tag : string) (props : list (string * string))
       (onclick : option Action) (children : list node).

Definition createElement (tag : string) : node := Elem tag [] None [].

(** [el.key = v] for a plain property ([className], [title], [value],
    [style.*]). *)
Definition set_prop (key v : string) (el : node) : node :=
  match el with
  | Elem tag props h kids => Elem tag (props ++ [(key, v)]) h kids
  | _ => el
  end.

Definition set_onclick (a : Action) (el : node) : node :=
  match el with
  | Elem tag props _ kids => Elem tag props (Some a) kids
  | _ => el
  end.

Definition appendChild (child : node) (el : node) : node :=
  match el with
  | Elem tag props h kids => Elem tag props h (kids ++ [child])
  | _ => el
  end.

(** The children left by [el.textContent = s]: one text node, or none when
    [s] is empty. *)
Definition text_nodes (s : string) : list node :=
  if String.eqb s "" then [] else [Text s].

(** The children left by [el.innerHTML = src]. *)
Definition html_nodes (src : string) : list node :=
  if String.eqb src "" then [] else [Html src].

Definition set_textContent (s : string) (el : node) : node :=
  match el with
  | Elem tag props h _ => Elem tag props h (text_nodes s)
  | _ => el
  end.

Definition set_innerHTML (src : string) (el : node) : node :=
  match el with
  | Elem tag props h _ => Elem tag props h (html_nodes src)
  | _ => el
  end.

Definition children (el : node) : list node :=
  match el with
  | Elem _ _ _ kids => kids
  | _ => []
  end.

(** The [value] property of an element, if the script has set one. *)
Definition value_of (el : node) : option string :=
  match el with
  | Elem _ props _ _ =>
      option_map snd
        (find (fun kv => String.eqb (fst kv) "value") (rev props))
  | _ => None
  end.

Definition action_eqb (a b : Action) : bool :=
  match a, b with
  | UnregisterParticipant a1 e1, UnregisterParticipant a2 e2 =>
      (String.eqb a1 a2 && String.eqb e1 e2)%bool
  end.

(** The closures that the script has stored in [onclick] properties inside
    a node, in document order.  Elements that the HTML parser builds from an
    [innerHTML] source hold no closure of the script. *)
Fixpoint actions (n : node) : list Action :=
  match n with
  | Text _ => []
  | Html _ => []
  | Elem _ _ h kids =>
      (match h with Some a => [a] | None => [] end ++ flat_map actions kids)%list
  end.

(** The element [#message]: its text and its class tokens. *)
Record MessageDiv : Type := mkMessageDiv {
  textContent : string;
  classList : list string
}.

Definition classList_remove (tok : string) (cl : list string) : list string :=
  filter (fun c => negb (String.eqb c tok)) cl.

Definition classList_contains (tok : string) (cl : list string) : bool :=
  existsb (String.eqb tok) cl.

Definition classList_add (tok : string) (cl : list string) : list string :=
  if classList_contains tok cl then cl else cl ++ [tok].

(** The controls of [#signup-form]: the current values of [#email] and
    [#activity], and the values that [reset()] restores (they come from the
    page markup). *)
Record Form : Type := mkForm {
  email_value : string;
  activity_value : string;
  email_default : string;
  activity_default : string
}.

Definition reset (f : Form) : Form :=
  mkForm (email_default f) (activity_default f)
         (email_default f) (activity_default f).

End Dom.
Export Dom.

(** ** Built-in encoders used to build the requests *)

Module Encode.

Definition in_range (lo hi : nat) (c : ascii) : bool :=
  (Nat.leb lo (nat_of_ascii c) && Nat.leb (nat_of_ascii c) hi)%bool.

(** The three bytes that stand for a surrogate code point.  A surrogate pair
    is one four-byte character in this representation, so a surrogate found
    in a string is always a lone one. *)
Definition surrogate (c1 c2 c3 : ascii) : bool :=
  (Nat.eqb (nat_of_ascii c1) 237 && in_range 160 191 c2 && in_range 128 191 c3)%bool.

Fixpoint lone_surrogate (s : string) : bool :=
  match s with
  | EmptyString => false
  | String c1 rest =>
      ((match rest with
        | String c2 (String c3 _) => surrogate c1 c2 c3
        | _ => false
        end)
       || lone_surrogate rest)%bool
  end.

(** The characters that [encodeURIComponent] leaves alone:
    [A-Z a-z 0-9 - _ . ! ~ * ' ( )]. *)
Definition unreserved (c : ascii) : bool :=
  (in_range 65 90 c || in_range 97 122 c || in_range 48 57 c
   || existsb (Ascii.eqb c) (list_ascii_of_string "-_.!~*'()"))%bool.

Definition hex_digit (upper : bool) (n : nat) : ascii :=
  if Nat.ltb n 10 then ascii_of_nat (48 + n)
  else ascii_of_nat ((if upper then 55 else 87) + n).

(** The escape [%XX] of one byte, with upper-case digits. *)
Definition percent (c : ascii) : string :=
  String "%"
    (String (hex_digit true (Nat.div (nat_of_ascii c) 16))
       (String (hex_digit true (Nat.modulo (nat_of_ascii c) 16)) "")).

(** The escaping step of [encodeURIComponent]: every byte of the UTF-8
    encoding that is not an unreserved character becomes [%XX]. *)
Fixpoint percent_encode (s : string) : string :=
  match s with
  | EmptyString => ""
  | String c rest =>
      (if unreserved c then String c "" else percent c)
      ++ percent_encode rest
  end.

Definition URIError : exn := Exn "URIError" "URI malformed".

(** [encodeURIComponent]: it throws on a string that holds a lone
    surrogate, and escapes the UTF-8 bytes of any other string. *)
Definition encodeURIComponent (s : string) : exn + string :=
  if lone_surrogate s then inl URIError else inr (percent_encode s).

Definition dquote : string := String (ascii_of_nat 34) "".

(** The escape of one byte inside a JSON string literal. *)
Definition json_escape (c : ascii) : string :=
  let n := nat_of_ascii c in
  if Nat.eqb n 34 then "\" ++ dquote
  else if Nat.eqb n 92 then "\\"
  else if Nat.eqb n 8 then "\b"
  else if Nat.eqb n 12 then "\f"
  else if Nat.eqb n 10 then "\n"
  else if Nat.eqb n 13 then "\r"
  else if Nat.eqb n 9 then "\t"
  else if Nat.ltb n 32 then
    "\u00" ++ String (hex_digit false (Nat.div n 16))
                (String (hex_digit false (Nat.modulo n 16)) "")
  else String c "".

(** The escape [\udXXX] of the surrogate whose second and third bytes are
    [c2] and [c3]. *)
Definition surrogate_escape (c2 c3 : ascii) : string :=
  let low := ((nat_of_ascii c2 - 128) * 64 + (nat_of_ascii c3 - 128))%nat in
  "\ud" ++ String (hex_digit false (Nat.div low 256))
             (String (hex_digit false (Nat.modulo (Nat.div low 16) 16))
                (String (hex_digit false (Nat.modulo low 16)) "")).

(** The inside of the string literal that [JSON.stringify] writes: quotes,
    backslashes and control characters are escaped, a lone surrogate is
    written as a [\u] escape, every other byte is copied. *)
Fixpoint json_escape_all (s : string) : string :=
  match s with
  | EmptyString => ""
  | String c rest =>
      match rest with
      | String c2 (String c3 rest') =>
          if surrogate c c2 c3
          then surrogate_escape c2 c3 ++ json_escape_all rest'
          else json_escape c ++ json_escape_all rest
      | _ => json_escape c ++ json_escape_all rest
      end
  end.

Definition json_quote (s : string) : string :=
  dquote ++ json_escape_all s ++ dquote.

(** [JSON.stringify({ email })]. *)
Definition stringify_email (email : string) : string :=
  "{" ++ json_quote "email" ++ ":" ++ json_quote email ++ "}".

End Encode.
Export Encode.

(** ** The page state and the effect monad *)

Module Page.

(** A call of [fetch]: the string given as its first argument, which the
    browser then resolves as a URL, and the options given as its second. *)
Record Request : Type := mkRequest {
  url : string;
  method : string;
  headers : list (string * string);
  body : option string
}.

(** The answer to a request.  [json_body] is the outcome of
    [response.json()]: the decoded document, or the exception of the
    decoder. *)
Record Response (A : Type) : Type := mkResponse {
  status : Z;
  json_body : exn + A
}.
Arguments mkResponse {A} _ _.
Arguments status {A} _.
Arguments json_body {A} _.

(** [response.ok]: the status is in the range 200-299. *)
Definition ok {A : Type} (r : Response A) : bool :=
  ((200 <=? status r) && (status r <=? 299))%bool.

(** The outcome of [await fetch(...)]: a rejection or a response. *)
Definition FetchResult (A : Type) : Type := (exn + Response A)%type.

(** The callbacks handed to [setTimeout]; the script has one. *)
Inductive Callback : Type :=
| HideMessage.

Record Timer : Type := mkTimer {
  due : Z;
  callback : Callback
}.

(** Everything the script reads and writes: the four elements it looks up,
    the requests it has issued, the pending timers, the clock (milliseconds),
    the console, the alerts shown, and whether the [DOMContentLoaded] callback
    has run and registered the submit listener. *)
Record page : Type := mkPage {
  activitiesList : list node;
  activitySelect : list node;
  signupForm : Form;
  messageDiv : MessageDiv;
  requests : list Request;
  timers : list Timer;
  clock : Z;
  console : list (string * exn);
  alerts : list string;
  listening : bool
}.

(** A statement: it updates the page and either throws or yields a value. *)
Definition M (A : Type) : Type := page -> page * (exn + A).

Definition ret {A : Type} (a : A) : M A := fun st => (st, inr a).

Definition bind {A B : Type} (m : M A) (k : A -> M B) : M B :=
  fun st =>
    match m st with
    | (st', inl e) => (st', inl e)
    | (st', inr a) => k a st'
    end.

(** [try { body } catch (error) { handler }]. *)
Definition try_catch {A : Type} (body : M A) (handler : exn -> M A) : M A :=
  fun st =>
    match body st with
    | (st', inl e) => handler e st'
    | r => r
    end.

(** [await p] once [p] has settled: a rejection is thrown.  Also used for
    an expression whose evaluation can throw. *)
Definition await {A : Type} (settled : exn + A) : M A :=
  fun st => (st, settled).

Definition modify (f : page -> page) : M unit := fun st => (f st, inr tt).

Definition when (b : bool) (m : M unit) : M unit := if b then m else ret tt.

Fixpoint forEach {A : Type} (xs : list A) (f : A -> M unit) : M unit :=
  match xs with
  | [] => ret tt
  | x :: rest => bind (f x) (fun _ => forEach rest f)
  end.

End Page.
Export Page.

Declare Scope js_scope.
Delimit Scope js_scope with js.
Notation "x <- m ;; k" := (bind m (fun x => k))
  (at level 61, m at next level, right associativity) : js_scope.
Notation "m ;; k" := (bind m (fun _ => k))
  (at level 61, right associativity) : js_scope.
Local Open Scope js_scope.

(** ** The script *)

Module Script.

(** *** Primitive statements on the page *)

Definition set_activitiesList (kids : list node) (st : page) : page :=
  mkPage kids (activitySelect st) (signupForm st) (messageDiv st)
         (requests st) (timers st) (clock st) (console st) (alerts st)
         (listening st).

Definition set_activitySelect (kids : list node) (st : page) : page :=
  mkPage (activitiesList st) kids (signupForm st) (messageDiv st)
         (requests st) (timers st) (clock st) (console st) (alerts st)
         (listening st).

Definition set_signupForm (f : Form) (st : page) : page :=
  mkPage (activitiesList st) (activitySelect st) f (messageDiv st)
         (requests st) (timers st) (clock st) (console st) (alerts st)
         (listening st).

Definition set_messageDiv (m : MessageDiv) (st : page) : page :=
  mkPage (activitiesList st) (activitySelect st) (signupForm st) m
         (requests st) (timers st) (clock st) (console st) (alerts st)
         (listening st).

Definition set_requests (rs : list Request) (st : page) : page :=
  mkPage (activitiesList st) (activitySelect st) (signupForm st) (messageDiv st)
         rs (timers st) (clock st) (console st) (alerts st)
         (listening st).

Definition set_timers (ts : list Timer) (st : page) : page :=
  mkPage (activitiesList st) (activitySelect st) (signupForm st) (messageDiv st)
         (requests st) ts (clock st) (console st) (alerts st)
         (listening st).

Definition set_clock (t : Z) (st : page) : page :=
  mkPage (activitiesList st) (activitySelect st) (signupForm st) (messageDiv st)
         (requests st) (timers st) t (console st) (alerts st)
         (listening st).

Definition set_console (c : list (string * exn)) (st : page) : page :=
  mkPage (activitiesList st) (activitySelect st) (signupForm st) (messageDiv st)
         (requests st) (timers st) (clock st) c (alerts st)
         (listening st).

Definition set_alerts (a : list string) (st : page) : page :=
  mkPage (activitiesList st) (activitySelect st) (signupForm st) (messageDiv st)
         (requests st) (timers st) (clock st) (console st) a
         (listening st).

Definition set_listening (b : bool) (st : page) : page :=
  mkPage (activitiesList st) (activitySelect st) (signupForm st) (messageDiv st)
         (requests st) (timers st) (clock st) (console st) (alerts st)
         b.

(** [fetch(url, init)]: the request leaves; its answer comes later. *)
Definition fetch (r : Request) : M unit :=
  modify (fun st => set_requests (requests st ++ [r]) st).

Definition activitiesList_set_innerHTML (src : string) : M unit :=
  modify (set_activitiesList (html_nodes src)).

Definition activitiesList_appendChild (n : node) : M unit :=
  modify (fun st => set_activitiesList (activitiesList st ++ [n]) st).

Definition activitySelect_appendChild (n : node) : M unit :=
  modify (fun st => set_activitySelect (activitySelect st ++ [n]) st).

(** [messageDiv.textContent = s] for a string [s]. *)
Definition messageDiv_set_textContent (s : string) : M unit :=
  modify (fun st =>
    set_messageDiv (mkMessageDiv s (classList (messageDiv st))) st).

(** [messageDiv.textContent = v] for a value read from a document: the
    setter converts [v] to a string first, and nothing is stored when the
    conversion throws. *)
Definition messageDiv_assign_textContent (v : value) : M unit :=
  s <- await (text_of v) ;;
  messageDiv_set_textContent s.

(** [messageDiv.className = c] for a one-token [c]: the class attribute is
    overwritten. *)
Definition messageDiv_set_className (c : string) : M unit :=
  modify (fun st =>
    set_messageDiv (mkMessageDiv (textContent (messageDiv st)) [c]) st).

Definition messageDiv_classList_remove (tok : string) : M unit :=
  modify (fun st =>
    set_messageDiv
      (mkMessageDiv (textContent (messageDiv st))
                    (classList_remove tok (classList (messageDiv st)))) st).

Definition messageDiv_classList_add (tok : string) : M unit :=
  modify (fun st =>
    set_messageDiv
      (mkMessageDiv (textContent (messageDiv st))
                    (classList_add tok (classList (messageDiv st)))) st).

Definition signupForm_reset : M unit :=
  modify (fun st => set_signupForm (reset (signupForm st)) st).

Definition setTimeout (cb : Callback) (delay : Z) : M unit :=
  modify (fun st => set_timers (timers st ++ [mkTimer (clock st + delay) cb]) st).

Definition console_error (label : string) (error : exn) : M unit :=
  modify (fun st => set_console (console st ++ [(label, error)]) st).

Definition alert (msg : string) : M unit :=
  modify (fun st => set_alerts (alerts st ++ [msg]) st).

(** *** The roster *)

(** One value of the object that [GET /activities] returns, with the four
    properties the script reads from [details].  [max_participants] is an
    integer; what the script computes and prints from it is that of [Z] on
    the safe integers, which the statements about the count assume. *)
Record Activity : Type := mkActivity {
  description : string;
  schedule : string;
  max_participants : Z;
  participants : list string
}.

(** [Object.entries(activities)] of a roster: the activities by name, in
    enumeration order. *)
Definition Roster : Type := list (string * Activity).

(** The value of one entry of a decoded body of any shape, as the loop meets
    it: either it has the shape of an activity, or reading it throws.  The
    loop reads [details.participants.length] first (line 21) and appends the
    card last (line 72), so an entry that throws leaves nothing on the
    page. *)
Inductive Details : Type :=
| Shaped (details : Activity)
| Misshaped (error : exn).

(** A decoded body of any shape: [null], on which [Object.entries] throws,
    or a value with entries (none for a number or a boolean). *)
Inductive Document : Type :=
| Null
| Entries (entries : list (string * Details)).

Definition Object_entries (doc : Document) : exn + list (string * Details) :=
  match doc with
  | Null =>
      inl (Exn "TypeError" "Cannot convert undefined or null to object")
  | Entries entries => inr entries
  end.

(** A roster as a document. *)
Definition shaped (R : Roster) : Document :=
  Entries (map (fun entry => (fst entry, Shaped (snd entry))) R).

Definition shaped_answer (net : FetchResult Roster) : FetchResult Document :=
  match net with
  | inl error => inl error
  | inr r =>
      inr (mkResponse (status r)
             (match json_body r with
              | inl error => inl error
              | inr R => inr (shaped R)
              end))
  end.

(** *** [fetchActivities] *)

(** The row of one participant: the e-mail in a [span], then the delete
    button. *)
Definition participant_item (name email : string) : node :=
  let li := createElement "li" in
  let li := set_prop "style.display" "flex" li in
  let li := set_prop "style.alignItems" "center" li in
  let span := createElement "span" in
  let span := set_textContent email span in
  let deleteBtn := createElement "button" in
  let deleteBtn := set_innerHTML "🗑️" deleteBtn in
  let deleteBtn := set_prop "title" "Unregister" deleteBtn in
  let deleteBtn := set_prop "style.marginLeft" "8px" deleteBtn in
  let deleteBtn := set_prop "style.background" "none" deleteBtn in
  let deleteBtn := set_prop "style.border" "none" deleteBtn in
  let deleteBtn := set_prop "style.cursor" "pointer" deleteBtn in
  let deleteBtn := set_onclick (UnregisterParticipant name email) deleteBtn in
  let li := appendChild span li in
  let li := appendChild deleteBtn li in
  li.

Definition participants_section (name : string) (details : Activity) : node :=
  let participantsSection := createElement "div" in
  let participantsSection :=
    set_prop "className" "participants-section" participantsSection in
  let strong := createElement "strong" in
  let strong := set_textContent "Participants:" strong in
  let participantsSection := appendChild strong participantsSection in
  if (0 <? Z.of_nat (List.length (participants details))) then
    let ul := createElement "ul" in
    let ul := set_prop "style.listStyleType" "none" ul in
    let ul := set_prop "style.paddingLeft" "0" ul in
    let ul :=
      fold_left (fun ul email => appendChild (participant_item name email) ul)
                (participants details) ul in
    appendChild ul participantsSection
  else
    let noPart := createElement "span" in
    let noPart := set_prop "className" "no-participants" noPart in
    let noPart := set_textContent "No participants yet" noPart in
    appendChild noPart participantsSection.

(** The template literal assigned to [activityCard.innerHTML]. *)
Definition card_template (name : string) (details : Activity) (spotsLeft : Z)
  : string :=
  nl ++
  "          <h4>" ++ name ++ "</h4>" ++ nl ++
  "          <p>" ++ description details ++ "</p>" ++ nl ++
  "          <p><strong>Schedule:</strong> " ++ schedule details ++ "</p>" ++ nl ++
  "          <p><strong>Availability:</strong> " ++ string_of_Z spotsLeft
     ++ " spots left</p>" ++ nl ++
  "        ".

Definition activity_card (name : string) (details : Activity) : node :=
  let activityCard := createElement "div" in
  let activityCard := set_prop "className" "activity-card" activityCard in
  let spotsLeft :=
    max_participants details - Z.of_nat (List.length (participants details)) in
  let participantsSection := participants_section name details in
  let activityCard :=
    set_innerHTML (card_template name details spotsLeft) activityCard in
  let activityCard := appendChild participantsSection activityCard in
  activityCard.

Definition activity_option (name : string) : node :=
  let option := createElement "option" in
  let option := set_prop "value" name option in
  let option := set_textContent name option in
  option.

(** The body of the [forEach] over the entries. *)
Definition render_entry (entry : string * Details) : M unit :=
  let '(name, details) := entry in
  match details with
  | Shaped details =>
      activitiesList_appendChild (activity_card name details) ;;
      activitySelect_appendChild (activity_option name)
  | Misshaped error => await (inl error)
  end.

(** The call [fetchActivities()]: the routine runs up to its first [await],
    which issues the read request. *)
Definition fetchActivities_call : M unit :=
  fetch (mkRequest "/activities" "GET" [] None).

(** The rest of [fetchActivities], run when the request settles, for a body
    of any shape. *)
Definition fetchActivities_continue (net : FetchResult Document) : M unit :=
  try_catch
    (response <- await net ;;
     activities <- await (json_body response) ;;
     activitiesList_set_innerHTML "" ;;
     entries <- await (Object_entries activities) ;;
     forEach entries render_entry)
    (fun error =>
       activitiesList_set_innerHTML
         "<p>Failed to load activities. Please try again later.</p>" ;;
       console_error "Error fetching activities:" error).

(** The same, when the body, if it decodes, is a roster. *)
Definition fetchActivities_resume (net : FetchResult Roster) : M unit :=
  fetchActivities_continue (shaped_answer net).

(** *** The submit handler of [#signup-form] *)

(** The template literal of the target, once both strings are escaped. *)
Definition signup_url (activity email : string) : string :=
  "/activities/" ++ percent_encode activity
    ++ "/signup?email=" ++ percent_encode email.

(** The evaluation of the template literal: [encodeURIComponent] is called
    on the activity, then on the e-mail, and either call can throw. *)
Definition signup_target (activity email : string) : exn + string :=
  match encodeURIComponent activity with
  | inl error => inl error
  | inr a =>
      match encodeURIComponent email with
      | inl error => inl error
      | inr e => inr ("/activities/" ++ a ++ "/signup?email=" ++ e)
      end
  end.

(** The [catch] block of the handler. *)
Definition submit_catch (error : exn) : M unit :=
  messageDiv_set_textContent "Failed to sign up. Please try again." ;;
  messageDiv_set_className "error" ;;
  messageDiv_classList_remove "hidden" ;;
  console_error "Error signing up:" error.

(** The handler up to [await fetch(...)]: it reads the two controls,
    builds the target and sends the request.  The target is built inside the
    [try] block.  ([event.preventDefault()] only keeps the browser from
    navigating.) *)
Definition submit_call : M unit :=
  fun st =>
    let email := email_value (signupForm st) in
    let activity := activity_value (signupForm st) in
    try_catch
      (target <- await (signup_target activity email) ;;
       fetch (mkRequest target "POST" [] None))
      submit_catch
      st.

(** The rest of the handler.  No statement touches the page between the
    two [await]s, so they are taken together. *)
Definition submit_resume (net : FetchResult json) : M unit :=
  try_catch
    (response <- await net ;;
     result <- await (json_body response) ;;
     (if ok response then
        message <- await (get_prop result "message") ;;
        messageDiv_assign_textContent message ;;
        messageDiv_set_className "success" ;;
        signupForm_reset ;;
        fetchActivities_call
      else
        detail <- await (get_prop result "detail") ;;
        messageDiv_assign_textContent (or_else detail "An error occurred") ;;
        messageDiv_set_className "error") ;;
     messageDiv_classList_remove "hidden" ;;
     setTimeout HideMessage 5000)
    submit_catch.

(** *** [unregisterParticipant] *)

Definition unregister_url (activity : string) : string :=
  "/activities/" ++ percent_encode activity ++ "/unregister".

Definition unregister_target (activity : string) : exn + string :=
  match encodeURIComponent activity with
  | inl error => inl error
  | inr a => inr ("/activities/" ++ a ++ "/unregister")
  end.

(** The routine up to [await fetch(...)]; the target is built inside the
    [try] block. *)
Definition unregisterParticipant_call (activity email : string) : M unit :=
  try_catch
    (target <- await (unregister_target activity) ;;
     fetch (mkRequest target "POST"
                      [("Content-Type", "application/json")]
                      (Some (stringify_email email))))
    (fun error => alert "Error unregistering participant.").

(** The rest of [unregisterParticipant]; the body of the response is never
    read. *)
Definition unregisterParticipant_resume {A : Type} (net : FetchResult A)
  : M unit :=
  try_catch
    (response <- await net ;;
     if ok response then fetchActivities_call
     else alert "Failed to unregister participant.")
    (fun error => alert "Error unregistering participant.").

(** *** Timers and the event loop *)

Definition run_callback (cb : Callback) : M unit :=
  match cb with
  | HideMessage => messageDiv_classList_add "hidden"
  end.

Definition is_due (t : Z) (tm : Timer) : bool := due tm <=? t.

(** [dt] milliseconds pass: the timers that fall due run, in the order they
    were set, and leave the queue. *)
Definition elapse (dt : Z) : M unit :=
  fun st =>
    let t := clock st + dt in
    let fired := filter (is_due t) (timers st) in
    let kept := filter (fun tm => negb (is_due t tm)) (timers st) in
    forEach fired (fun tm => run_callback (callback tm))
            (set_clock t (set_timers kept st)).

(** The selector has an option of this value. *)
Definition has_option (v : string) (st : page) : bool :=
  existsb
    (fun el => match value_of el with
               | Some w => String.eqb w v
               | None => false
               end)
    (activitySelect st).

(** The list holds a delete button wired to this action. *)
Definition has_control (a : Action) (st : page) : bool :=
  existsb (action_eqb a) (flat_map actions (activitiesList st)).

(** What can happen to the page.  [ActivitiesSettled] is a load whose body,
    if it decodes, is a roster; [ActivitiesDecoded] is a load whose body
    decodes to a document of any shape. *)
Inductive Event : Type :=
| DOMContentLoaded
| ActivitiesSettled (net : FetchResult Roster)
| ActivitiesDecoded (code : Z) (doc : Document)
| Typed (email activity : string)
| Submit
| SignupSettled (net : FetchResult json)
| Click (a : Action)
| UnregisterSettled (net : FetchResult json)
| Elapsed (dt : Z).

(** The script's reaction to an event.
    - [DOMContentLoaded] (fired once): the callback registers the submit
      listener and calls [fetchActivities].
    - [Typed]: the user fills in the e-mail and picks an activity; the
      selector takes a value only when one of its options has it, and shows
      the empty value otherwise.
    - [Submit]: the handler runs once it is registered.
    - [Click]: the closure of a delete button runs; the button must be in the
      list. *)
Definition handle (ev : Event) : M unit :=
  match ev with
  | DOMContentLoaded =>
      modify (set_listening true) ;;
      fetchActivities_call
  | ActivitiesSettled net => fetchActivities_resume net
  | ActivitiesDecoded code doc =>
      fetchActivities_continue (inr (mkResponse code (inr doc)))
  | Typed email activity =>
      modify (fun st =>
        set_signupForm
          (mkForm email
                  (if has_option activity st then activity else "")
                  (email_default (signupForm st))
                  (activity_default (signupForm st))) st)
  | Submit =>
      fun st => if listening st then submit_call st else ret tt st
  | SignupSettled net => submit_resume net
  | Click (UnregisterParticipant activity email) =>
      fun st =>
        if has_control (UnregisterParticipant activity email) st
        then unregisterParticipant_call activity email st
        else ret tt st
  | UnregisterSettled net => unregisterParticipant_resume net
  | Elapsed dt => elapse dt
  end.

Definition step (st : page) (ev : Event) : page := fst (handle ev st).

Definition run (evs : list Event) (st : page) : page := fold_left step evs st.

(** *** Observations *)

(** The message is on screen unless [#message] carries the class [hidden]. *)
Definition message_visible (st : page) : bool :=
  negb (classList_contains "hidden" (classList (messageDiv st))).

Definition load_request : Request := mkRequest "/activities" "GET" [] None.

Definition is_load (r : Request) : bool :=
  (String.eqb (url r) "/activities" && String.eqb (method r) "GET")%bool.

(** How many times [fetchActivities] has been called. *)
Definition loads (st : page) : nat := List.length (filter is_load (requests st)).

End Script.
Export Script.

(** ** A sample page and a sample roster *)

Module Sample.

(** A page as its markup could declare it, before the script has run: an
    empty list, a selector holding a placeholder option, an empty form and a
    hidden message. *)
Definition placeholder : node :=
  Elem "option" [("value", "")] None [Text "-- Select an activity --"].

Definition blank : page :=
  mkPage [] [placeholder] (mkForm "" "" "" "")
         (mkMessageDiv "" ["hidden"]) [] [] 0 [] [] false.

Definition chess : Activity := mkActivity "d" "s" 10 ["a@x.com"].

Definition roster : Roster := [("Chess Club", chess)].

Definition answer {A : Type} (code : Z) (doc : A) : FetchResult A :=
  inr (mkResponse code (inr doc)).

Definition garbled {A : Type} (code : Z) : FetchResult A :=
  inr (mkResponse code
         (inl (Exn "SyntaxError" "Unexpected token < in JSON at position 0"))).


Definition signed_up : json := JObj [("message", JStr "Signed up")].

Definition offline {A : Type} : FetchResult A :=
  inl (Exn "TypeError" "Failed to fetch").

(** The page once the script has run and its first load has shown the
    sample roster. *)
Definition loaded : page :=
  run [DOMContentLoaded; ActivitiesSettled (answer 200 roster)] blank.

(** A string made of one lone surrogate (U+D800). *)
Definition lone : string :=
  String (ascii_of_nat 237) (String (ascii_of_nat 160) (String (ascii_of_nat 128) "")).

End Sample.

(** ** Vocabulary of the statements *)

Module Obs.

Definition card_of (entry : string * Activity) : node :=
  activity_card (fst entry) (snd entry).

Definition option_of (entry : string * Activity) : node :=
  activity_option (fst entry).

(** [hay] contains [needle] verbatim. *)
Definition contains (needle hay : string) : Prop :=
  exists pre post, hay = pre ++ needle ++ post.

(** The availability line of a card showing [n] spots. *)
Definition availability_line (n : Z) : string :=
  "<p><strong>Availability:</strong> " ++ string_of_Z n ++ " spots left</p>".

(** Reading a decimal numeral back. *)
Definition read_Z (s : string) : option Z :=
  option_map Z.of_int (NilZero.int_of_string s).


(** The page after a statement, whatever it yields. *)
Definition after (m : M unit) (st : page) : page := fst (m st).

(** The statement ran to its end without throwing. *)
Definition completes (m : M unit) (st : page) : Prop := snd (m st) = inr tt.

(** The settled load threw before rendering: the request was rejected, or the
    body did not decode. *)
Definition load_threw (net : FetchResult Roster) (error : exn) : Prop :=
  net = inl error \/ exists code, net = inr (mkResponse code (inl error)).

Definition failed_to_load : node :=
  Html "<p>Failed to load activities. Please try again later.</p>".

(** A timer of the queue falls due within [dt] milliseconds of now. *)
Definition some_timer_due (dt : Z) (st : page) : bool :=
  existsb (is_due (clock st + dt)) (timers st).

(** The message set by the [catch] block of the submit handler. *)
Definition sign_up_failed : MessageDiv :=
  mkMessageDiv "Failed to sign up. Please try again." ["error"].

(** The timer set by the submit handler on a page whose clock reads [now]. *)
Definition hide_timer (now : Z) : Timer := mkTimer (now + 5000) HideMessage.

(** The page once [#message] has been given the class [hidden]. *)
Definition hidden (st : page) : page :=
  after (messageDiv_classList_add "hidden") st.

(** The page [dt] milliseconds later, before any timer has run. *)
Definition later (dt : Z) (st : page) : page :=
  set_clock (clock st + dt)
    (set_timers (filter (fun tm => negb (is_due (clock st + dt) tm)) (timers st))
       st).

(** [Number.isSafeInteger]: on these integers the doubles of JS compute and
    print as [Z] does. *)
Definition safe_integer (z : Z) : Prop :=
  - 9007199254740991 <= z <= 9007199254740991.

(** [spotsLeft] of an activity. *)
Definition spots (details : Activity) : Z :=
  max_participants details - Z.of_nat (List.length (participants details)).

(** The count of an activity stays within the safe integers. *)
Definition safe_activity (details : Activity) : Prop :=
  safe_integer (max_participants details) /\ safe_integer (spots details).

(** A document that ToString converts without throwing: no object with an
    own [toString] property, neither the document itself nor, for an array,
    any of its elements at any depth. *)
Fixpoint printable (j : json) : bool :=
  match j with
  | JArr items => forallb printable items
  | JObj fields =>
      match assoc "toString" fields with
      | Some _ => false
      | None => true
      end
  | _ => true
  end.

Definition printable_value (v : value) : bool :=
  match v with
  | Some j => printable j
  | None => true
  end.

(** An object without an own [toString] property. *)
Definition plain_object (j : json) : bool :=
  match j with
  | JObj fields =>
      match assoc "toString" fields with
      | Some _ => false
      | None => true
      end
  | _ => false
  end.

(** How a settled sign-up request leaves the [try] block: through the
    success branch with the text shown, through the error branch with the
    text shown, or by an exception. *)
Inductive SignupOutcome : Type :=
| Succeeded (text : string)
| Refused (text : string)
| Threw (error : exn).

Definition signup_outcome (net : FetchResult json) : SignupOutcome :=
  match net with
  | inl error => Threw error
  | inr r =>
      match json_body r with
      | inl error => Threw error
      | inr result =>
          if ok r then
            match get_prop result "message" with
            | inl error => Threw error
            | inr message =>
                match text_of message with
                | inl error => Threw error
                | inr text => Succeeded text
                end
            end
          else
            match get_prop result "detail" with
            | inl error => Threw error
            | inr detail =>
                match text_of (or_else detail "An error occurred") with
                | inl error => Threw error
                | inr text => Refused text
                end
            end
      end
  end.

(** The answer is a response with a status in 200-299 whose body decodes
    to a document other than [null], and whose [message], if it has one,
    converts to a string. *)
Definition signup_succeeds (net : FetchResult json) : bool :=
  match net with
  | inr r =>
      match json_body r with
      | inr JNull => false
      | inr (JObj fields) => (ok r && printable_value (assoc "message" fields))%bool
      | inr _ => ok r
      | inl _ => false
      end
  | inl _ => false
  end.

(** Spec side: what percent-encoding means.  A percent-encoded text is read
    back by replacing each [%XX] by the byte it names. *)
Definition hex_value (c : ascii) : option nat :=
  if in_range 48 57 c then Some (nat_of_ascii c - 48)%nat
  else if in_range 65 70 c then Some (nat_of_ascii c - 55)%nat
  else if in_range 97 102 c then Some (nat_of_ascii c - 87)%nat
  else None.

Fixpoint percent_decode (s : string) : option string :=
  match s with
  | EmptyString => Some ""
  | String c rest =>
      if Ascii.eqb c "%" then
        match rest with
        | String h (String l rest') =>
            match hex_value h, hex_value l, percent_decode rest' with
            | Some a, Some b, Some r =>
                Some (String (ascii_of_nat (16 * a + b)) r)
            | _, _, _ => None
            end
        | _ => None
        end
      else option_map (String c) (percent_decode rest)
  end.

(** Spec side: the characters that may stand for themselves in a URI
    component. *)
Definition component_chars : string :=
  "ABCDEFGHIJKLMNOPQRSTUVWXYZabcdefghijklmnopqrstuvwxyz0123456789-_.!~*'()".

Definition component_char (c : ascii) : bool :=
  existsb (Ascii.eqb c) (list_ascii_of_string component_chars).

Definition upper_hex (c : ascii) : bool :=
  existsb (Ascii.eqb c) (list_ascii_of_string "0123456789ABCDEF").

(** Spec side: a text is percent-escaped when it is made of component
    characters and of escapes [%XX] with two upper-case hexadecimal digits. *)
Fixpoint percent_escaped (s : string) : bool :=
  match s with
  | EmptyString => true
  | String c rest =>
      if Ascii.eqb c "%" then
        match rest with
        | String h (String l rest') =>
            (upper_hex h && upper_hex l && percent_escaped rest')%bool
        | _ => false
        end
      else (component_char c && percent_escaped rest)%bool
  end.

(** Spec side: a text made of component characters and escape signs has
    none of the characters that delimit the parts of a URL. *)
Definition url_safe (s : string) : bool :=
  forallb (fun c => (component_char c || Ascii.eqb c "%")%bool)
          (list_ascii_of_string s).

(** Spec side: the UTF-8 bytes of a code point below 0x10000 (a surrogate
    is written like any other code point of three bytes). *)
Definition utf8_of_code (n : N) : string :=
  if (n <? 128)%N then String (ascii_of_N n) ""
  else if (n <? 2048)%N then
    String (ascii_of_N (192 + n / 64))
      (String (ascii_of_N (128 + n mod 64)) "")
  else
    String (ascii_of_N (224 + n / 4096))
      (String (ascii_of_N (128 + (n / 64) mod 64))
         (String (ascii_of_N (128 + n mod 64)) "")).

(** Spec side: the code point written by four hexadecimal digits. *)
Definition code_of_digits (a b c d : nat) : N :=
  (((N.of_nat a * 16 + N.of_nat b) * 16 + N.of_nat c) * 16 + N.of_nat d)%N.

(** Spec side: reading a JSON string literal whose opening quote has been
    consumed, up to its closing quote; yields the characters denoted and the
    text that follows.  A raw control character is refused, as JSON demands,
    and each [\u] escape is read on its own. *)
Fixpoint read_json_string (s : string) : option (string * string) :=
  match s with
  | EmptyString => None
  | String c rest =>
      if Ascii.eqb c (ascii_of_nat 34) then Some ("", rest)
      else if Ascii.eqb c "\" then
        match rest with
        | String e rest' =>
            let plain (x : ascii) :=
              option_map (fun dr => (String x (fst dr), snd dr))
                         (read_json_string rest') in
            if Ascii.eqb e (ascii_of_nat 34) then plain (ascii_of_nat 34)
            else if Ascii.eqb e "\" then plain "\"%char
            else if Ascii.eqb e "/" then plain "/"%char
            else if Ascii.eqb e "b" then plain (ascii_of_nat 8)
            else if Ascii.eqb e "f" then plain (ascii_of_nat 12)
            else if Ascii.eqb e "n" then plain (ascii_of_nat 10)
            else if Ascii.eqb e "r" then plain (ascii_of_nat 13)
            else if Ascii.eqb e "t" then plain (ascii_of_nat 9)
            else if Ascii.eqb e "u" then
              match rest' with
              | String h1 (String h2 (String h3 (String h4 rest''))) =>
                  match hex_value h1, hex_value h2, hex_value h3, hex_value h4,
                        read_json_string rest'' with
                  | Some a, Some b, Some c', Some d, Some dr =>
                      Some (utf8_of_code (code_of_digits a b c' d) ++ fst dr,
                            snd dr)
                  | _, _, _, _, _ => None
                  end
              | _ => None
              end
            else None
        | EmptyString => None
        end
      else if Nat.ltb (nat_of_ascii c) 32 then None
      else
        option_map (fun dr => (String c (fst dr), snd dr))
                   (read_json_string rest)
  end.

Fixpoint strip_prefix (p s : string) : option string :=
  match p, s with
  | EmptyString, _ => Some s
  | String a p', String b s' =>
      if Ascii.eqb a b then strip_prefix p' s' else None
  | String _ _, EmptyString => None
  end.

(** Spec side: the e-mail carried by a JSON text of the shape [{email}],
    as [JSON.stringify] lays it out. *)
Definition read_email_body (text : string) : option string :=
  match strip_prefix ("{" ++ dquote ++ "email" ++ dquote ++ ":" ++ dquote) text with
  | Some t =>
      match read_json_string t with
      | Some (email, "}") => Some email
      | _ => None
      end
  | None => None
  end.

(** [s] has no occurrence of [sep]. *)
Definition lacks (sep : ascii) (s : string) : bool :=
  forallb (fun c => negb (Ascii.eqb c sep)) (list_ascii_of_string s).

(** Spec side: the text before the first [sep] and the text after it. *)
Fixpoint split_at (sep : ascii) (s : string) : option (string * string) :=
  match s with
  | EmptyString => None
  | String c rest =>
      if Ascii.eqb c sep then Some ("", rest)
      else option_map (fun p => (String c (fst p), snd p)) (split_at sep rest)
  end.

(** Spec side: a query value ends at the first [&] or [#]. *)
Fixpoint query_value (s : string) : string :=
  match s with
  | EmptyString => ""
  | String c rest =>
      if (Ascii.eqb c "&" || Ascii.eqb c "#")%bool then ""
      else String c (query_value rest)
  end.

(** Spec side: reading the string given to [fetch] as a target of the form
    [/activities/{segment}/signup?email={value}]: the query is cut off at the
    first [?], the path must be [/activities/], one segment and [/signup], and
    the segment and the value of [email] are percent-decoded. *)
Definition route_signup (target : string) : option (string * string) :=
  match split_at "?" target with
  | Some (path, query) =>
      match strip_prefix "/activities/" path with
      | Some t =>
          match split_at "/" t with
          | Some (segment, "signup") =>
              match strip_prefix "email=" query with
              | Some v =>
                  match percent_decode segment,
                        percent_decode (query_value v) with
                  | Some activity, Some email => Some (activity, email)
                  | _, _ => None
                  end
              | None => None
              end
          | _ => None
          end
      | None => None
      end
  | None => None
  end.

(** Spec side: reading a target of the form
    [/activities/{segment}/unregister]. *)
Definition route_unregister (target : string) : option string :=
  match strip_prefix "/activities/" target with
  | Some t =>
      match split_at "/" t with
      | Some (segment, "unregister") => percent_decode segment
      | _ => None
      end
  | None => None
  end.

End Obs.
Export Obs.

(** ** Views of the page used by the further properties *)

Module Views.



(** The entries of a document that the loop renders: those before the first
    one that throws. *)
Fixpoint rendered_entries (entries : list (string * Details)) : Roster :=
  match entries with
  | (name, Shaped details) :: rest => (name, details) :: rendered_entries rest
  | _ => []
  end.

Definition rendered (doc : Document) : Roster :=
  match doc with
  | Null => []
  | Entries entries => rendered_entries entries
  end.

(** The exception that ends the loop, if one does. *)
Fixpoint thrown_entries (entries : list (string * Details)) : option exn :=
  match entries with
  | [] => None
  | (_, Shaped _) :: rest => thrown_entries rest
  | (_, Misshaped error) :: _ => Some error
  end.

Definition thrown (doc : Document) : option exn :=
  match doc with
  | Null => Some (Exn "TypeError" "Cannot convert undefined or null to object")
  | Entries entries => thrown_entries entries
  end.

(** The events on which the script calls [fetchActivities]. *)
Definition triggers_load (ev : Event) : bool :=
  match ev with
  | DOMContentLoaded => true
  | SignupSettled net => signup_succeeds net
  | UnregisterSettled (inr r) => ok r
  | _ => false
  end.

(** The options that an event adds to the selector. *)
Definition options_added (ev : Event) : list node :=
  match ev with
  | ActivitiesSettled (inr r) =>
      match json_body r with
      | inr R => map option_of R
      | inl _ => []
      end
  | ActivitiesDecoded _ doc => map option_of (rendered doc)
  | _ => []
  end.

(** The event runs no part of [unregisterParticipant]. *)
Definition not_unregistering (ev : Event) : Prop :=
  match ev with
  | Click _ => False
  | UnregisterSettled _ => False
  | _ => True
  end.

(** A pending timer is due after now and at most 5000 ms from now. *)
Definition in_window (now : Z) (tm : Timer) : Prop :=
  now < due tm <= now + 5000.

Definition timers_in_window (st : page) : Prop :=
  Forall (in_window (clock st)) (timers st).

(** Time does not run backwards in a list of events. *)
Definition forward (ev : Event) : Prop :=
  match ev with
  | Elapsed dt => 0 <= dt
  | _ => True
  end.

(** What a settled load puts in the list container. *)
Definition rendering (net : FetchResult Roster) : list node :=
  match net with
  | inr r =>
      match json_body r with
      | inr R => map card_of R
      | inl _ => [failed_to_load]
      end
  | inl _ => [failed_to_load]
  end.

Definition rendering_of (doc : Document) : list node :=
  match thrown doc with
  | Some _ => [failed_to_load]
  | None => map card_of (rendered doc)
  end.

(** What the load that settled last in a history put in the list, if any
    load settled. *)
Definition last_rendering (evs : list Event) : option (list node) :=
  fold_left
    (fun acc ev =>
       match ev with
       | ActivitiesSettled net => Some (rendering net)
       | ActivitiesDecoded _ doc => Some (rendering_of doc)
       | _ => acc
       end)
    evs None.

(** The counts of every roster that an event carries stay within the safe
    integers. *)
Definition safe_event (ev : Event) : Prop :=
  match ev with
  | ActivitiesSettled (inr r) =>
      match json_body r with
      | inr R => Forall (fun entry => safe_activity (snd entry)) R
      | inl _ => True
      end
  | ActivitiesDecoded _ doc =>
      Forall (fun entry => safe_activity (snd entry)) (rendered doc)
  | _ => True
  end.

(** The form holds values that [encodeURIComponent] accepts. *)
Definition form_encodable (f : Form) : bool :=
  (negb (lone_surrogate (activity_value f))
   && negb (lone_surrogate (email_value f)))%bool.

(** The request that the submit handler sends for the values of a form. *)
Definition signup_request (f : Form) : Request :=
  mkRequest (signup_url (activity_value f) (email_value f)) "POST" [] None.

End Views.
Export Views.

(** ** Strings *)

Section Strings.

Lemma append_assoc (a b c : string) : (a ++ b) ++ c = a ++ (b ++ c).
Proof. induction a as [|x a IH]; cbn; [reflexivity | now rewrite IH]. Qed.

Lemma append_nil_r (a : string) : a ++ "" = a.
Proof. induction a as [|x a IH]; cbn; [reflexivity | now rewrite IH]. Qed.

End Strings.

(** ** Rendering the roster *)

Section Rendering.

(** The loop over entries of any shape appends one card and one option per
    entry, in order, up to the first entry that throws. *)
Lemma forEach_entries (entries : list (string * Details)) (st : page) :
  forEach entries render_entry st =
  (set_activitySelect
     (activitySelect st ++ map option_of (rendered_entries entries))
     (set_activitiesList
        (activitiesList st ++ map card_of (rendered_entries entries)) st),
   match thrown_entries entries with
   | Some error => inl error
   | None => inr tt
   end).
Proof.
  revert st.
  induction entries as [|[name [details | error]] entries IH]; intros st.
  - destruct st; cbn. now rewrite !app_nil_r.
  - cbn [forEach]. unfold bind at 1. cbn [render_entry].
    unfold bind at 1, activitiesList_appendChild, activitySelect_appendChild,
      modify.
    rewrite IH. destruct st; cbn.
    now rewrite <- !app_assoc.
  - destruct st; cbn. now rewrite !app_nil_r.
Qed.

Lemma rendered_entries_shaped (R : Roster) :
  rendered_entries (map (fun entry => (fst entry, Shaped (snd entry))) R) = R.
Proof.
  induction R as [|[name details] R IH]; [reflexivity|].
  cbn. now rewrite IH.
Qed.

Lemma thrown_entries_shaped (R : Roster) :
  thrown_entries (map (fun entry => (fst entry, Shaped (snd entry))) R) = None.
Proof.
  induction R as [|[name details] R IH]; [reflexivity|]. exact IH.
Qed.

(** A settled, decoded load of any shape.  When the loop runs to its end
    the list holds the cards of the document; when it throws, the list holds
    the notice alone and the cause is logged.  Either way the options of the
    entries rendered are appended to the selector. *)
Lemma fetchActivities_continue_decoded (code : Z) (doc : Document) (st : page) :
  fetchActivities_continue (inr (mkResponse code (inr doc))) st =
  (match thrown doc with
   | None =>
       set_activitySelect (activitySelect st ++ map option_of (rendered doc))
         (set_activitiesList (map card_of (rendered doc)) st)
   | Some error =>
       set_console (console st ++ [("Error fetching activities:", error)])
         (set_activitiesList [failed_to_load]
            (set_activitySelect
               (activitySelect st ++ map option_of (rendered doc)) st))
   end,
   inr tt).
Proof.
  unfold fetchActivities_continue, try_catch, bind, await,
    activitiesList_set_innerHTML, modify.
  cbn [json_body].
  destruct doc as [|entries]; cbn [Object_entries thrown rendered].
  - destruct st; cbn. now rewrite !app_nil_r.
  - rewrite forEach_entries.
    destruct (thrown_entries entries); destruct st; reflexivity.
Qed.

(** A settled load whose body decodes to a roster: the list holds exactly
    the cards of the answer, and the options of the answer are appended to
    the selector. *)
Lemma fetchActivities_resume_decoded (code : Z) (R : Roster) (st : page) :
  fetchActivities_resume (inr (mkResponse code (inr R))) st =
  (set_activitySelect (activitySelect st ++ map option_of R)
     (set_activitiesList (map card_of R) st),
   inr tt).
Proof.
  unfold fetchActivities_resume, shaped_answer. cbn [status json_body].
  rewrite fetchActivities_continue_decoded.
  unfold thrown, rendered, shaped.
  now rewrite thrown_entries_shaped, rendered_entries_shaped.
Qed.

Lemma fold_left_appendChild {A : Type} (f : A -> node) (xs : list A)
      (tag : string) props h kids :
  fold_left (fun ul x => appendChild (f x) ul) xs (Elem tag props h kids) =
  Elem tag props h (kids ++ map f xs).
Proof.
  revert kids.
  induction xs as [|x xs IH]; intros kids; cbn.
  - now rewrite app_nil_r.
  - rewrite IH, <- app_assoc. reflexivity.
Qed.

(** The card of an activity: the parsed template, then the participants
    section. *)
Lemma activity_card_children (name : string) (details : Activity) :
  activity_card name details =
  Elem "div" [("className", "activity-card")] None
    [Html (card_template name details
             (max_participants details
              - Z.of_nat (List.length (participants details))));
     participants_section name details].
Proof.
  unfold activity_card, set_innerHTML, html_nodes.
  cbn. reflexivity.
Qed.

(** With at least one participant the section is the caption followed by the
    list of rows, one per participant in order. *)
Lemma participants_section_rows (name : string) (details : Activity) :
  participants details <> [] ->
  participants_section name details =
  Elem "div" [("className", "participants-section")] None
    [Elem "strong" [] None [Text "Participants:"];
     Elem "ul" [("style.listStyleType", "none"); ("style.paddingLeft", "0")]
       None (map (participant_item name) (participants details))].
Proof.
  intros Hne. unfold participants_section.
  destruct (participants details) as [|e es] eqn:E; [congruence|].
  replace (0 <? Z.of_nat (List.length (e :: es))) with true
    by (symmetry; apply Z.ltb_lt; cbn [List.length]; lia).
  cbn [createElement set_prop set_textContent appendChild app].
  rewrite fold_left_appendChild. reflexivity.
Qed.

(** Without participants the section shows the placeholder instead. *)
Lemma participants_section_empty (name : string) (details : Activity) :
  participants details = [] ->
  participants_section name details =
  Elem "div" [("className", "participants-section")] None
    [Elem "strong" [] None [Text "Participants:"];
     Elem "span" [("className", "no-participants")] None
       [Text "No participants yet"]].
Proof.
  intros E. unfold participants_section. rewrite E. reflexivity.
Qed.

Lemma participant_item_children (name email : string) :
  participant_item name email =
  Elem "li" [("style.display", "flex"); ("style.alignItems", "center")] None
    [Elem "span" [] None (text_nodes email);
     Elem "button"
       [("title", "Unregister"); ("style.marginLeft", "8px");
        ("style.background", "none"); ("style.border", "none");
        ("style.cursor", "pointer")]
       (Some (UnregisterParticipant name email))
       [Html "🗑️"]].
Proof. reflexivity. Qed.

(** The decimal numeral of a number reads back as that number. *)
Lemma read_string_of_Z (z : Z) : read_Z (string_of_Z z) = Some z.
Proof.
  unfold read_Z, string_of_Z.
  rewrite NilZero.isi.
  - cbn. now rewrite DecimalZ.of_to.
  - destruct z; cbn; try discriminate.
    intros [= H]. now apply DecimalPos.Unsigned.to_uint_nonnil in H.
  - destruct z; cbn; try discriminate.
    intros [= H]. now apply DecimalPos.Unsigned.to_uint_nonnil in H.
Qed.

Lemma contains_availability_line (name : string) (details : Activity) (n : Z) :
  contains (availability_line n) (card_template name details n).
Proof.
  unfold contains, card_template, availability_line.
  exists (nl ++ "          <h4>" ++ name ++ "</h4>" ++ nl ++
          "          <p>" ++ description details ++ "</p>" ++ nl ++
          "          <p><strong>Schedule:</strong> " ++ schedule details
            ++ "</p>" ++ nl ++ "          ").
  exists (nl ++ "        ").
  rewrite !append_assoc. reflexivity.
Qed.

End Rendering.

(** ** Loading the roster *)

Section Load.

Lemma activitiesList_decoded (st : page) (code : Z) (R : Roster) :
  activitiesList (step st (ActivitiesSettled (inr (mkResponse code (inr R)))))
  = map card_of R.
Proof.
  unfold step, handle. rewrite fetchActivities_resume_decoded.
  destruct st; reflexivity.
Qed.

Lemma activitySelect_decoded (st : page) (code : Z) (R : Roster) :
  activitySelect (step st (ActivitiesSettled (inr (mkResponse code (inr R)))))
  = (activitySelect st ++ map option_of R)%list.
Proof.
  unfold step, handle. rewrite fetchActivities_resume_decoded.
  destruct st; reflexivity.
Qed.

(** C1.  For every decoded roster [R] and every activity of [R] whose
    [max_participants] and count of spots left are safe integers, the card
    rendered for that activity carries the availability line, and the number
    shown on it is [max_participants] minus the number of participants. *)
Theorem spots_left_rendered
        (st : page) (code : Z) (R : Roster) (i : nat)
        (name : string) (details : Activity) :
  nth_error R i = Some (name, details) ->
  safe_integer (max_participants details) ->
  safe_integer
    (max_participants details - Z.of_nat (List.length (participants details))) ->
  let spotsLeft :=
    max_participants details - Z.of_nat (List.length (participants details)) in
  exists src,
    nth_error
      (activitiesList
         (step st (ActivitiesSettled (inr (mkResponse code (inr R))))))
      i
    = Some (Elem "div" [("className", "activity-card")] None
              [Html src; participants_section name details])
    /\ src = card_template name details spotsLeft
    /\ contains (availability_line spotsLeft) src
    /\ read_Z (string_of_Z spotsLeft) = Some spotsLeft.
Proof.
  intros Hi _ _ spotsLeft.
  exists (card_template name details spotsLeft).
  rewrite activitiesList_decoded, nth_error_map, Hi. cbn [option_map].
  unfold card_of. cbn [fst snd]. rewrite activity_card_children.
  repeat split.
  - apply contains_availability_line.
  - apply read_string_of_Z.
Qed.

Lemma spots_left_rendered_witness :
  exists src,
    nth_error
      (activitiesList
         (step Sample.blank (ActivitiesSettled (Sample.answer 200 Sample.roster))))
      0
    = Some (Elem "div" [("className", "activity-card")] None
              [Html src; participants_section "Chess Club" Sample.chess])
    /\ src = card_template "Chess Club" Sample.chess 9
    /\ contains (availability_line 9) src
    /\ read_Z (string_of_Z 9) = Some 9.
Proof.
  apply (spots_left_rendered Sample.blank 200 Sample.roster 0
           "Chess Club" Sample.chess).
  - reflexivity.
  - unfold safe_integer. cbn. lia.
  - unfold safe_integer. cbn. lia.
Defined.

(** C2.  The selector is not replaced by a load: the page loads, a sign-up
    succeeds and triggers the reload, and the selector then holds the option
    of the one activity twice, while the list holds its card once. *)
Theorem reload_duplicates_options :
  let st :=
    run [DOMContentLoaded;
         ActivitiesSettled (Sample.answer 200 Sample.roster);
         Typed "b@x.com" "Chess Club";
         Submit;
         SignupSettled (Sample.answer 200 Sample.signed_up);
         ActivitiesSettled (Sample.answer 200 Sample.roster)]
        Sample.blank in
  activitySelect st =
    [Sample.placeholder;
     activity_option "Chess Club"; activity_option "Chess Club"]
  /\ activitiesList st = [activity_card "Chess Club" Sample.chess]
  /\ loads st = 2%nat.
Proof. cbv zeta. repeat split; vm_compute; reflexivity. Qed.



End Load.

(** ** Load failures *)

Section LoadFailure.

Lemma fetchActivities_resume_threw
      (st : page) (net : FetchResult Roster) (error : exn) :
  load_threw net error ->
  fetchActivities_resume net st =
  (set_console (console st ++ [("Error fetching activities:", error)])
     (set_activitiesList [failed_to_load] st),
   inr tt).
Proof.
  intros [-> | [code ->]]; destruct st; reflexivity.
Qed.

(** [fetchActivities] never lets an exception out. *)
Lemma fetchActivities_resume_completes (st : page) (net : FetchResult Roster) :
  completes (fetchActivities_resume net) st.
Proof.
  unfold completes.
  destruct net as [error | [code [error | R]]].
  - now rewrite (fetchActivities_resume_threw st _ error) by now left.
  - now rewrite (fetchActivities_resume_threw st _ error)
      by (right; now exists code).
  - now rewrite fetchActivities_resume_decoded.
Qed.

(** C7.  When the request of a load is rejected or its body does not decode,
    the exception is caught: the routine ends normally, the list shows the
    static notice alone, the cause is logged on the console, and nothing else
    changes; in particular no request is issued again. *)
Theorem load_failure_is_caught
        (st : page) (net : FetchResult Roster) (error : exn) :
  load_threw net error ->
  let st' := step st (ActivitiesSettled net) in
  completes (fetchActivities_resume net) st
  /\ activitiesList st' = [failed_to_load]
  /\ console st' = (console st ++ [("Error fetching activities:", error)])%list
  /\ requests st' = requests st
  /\ loads st' = loads st
  /\ timers st' = timers st
  /\ alerts st' = alerts st
  /\ activitySelect st' = activitySelect st
  /\ messageDiv st' = messageDiv st
  /\ signupForm st' = signupForm st.
Proof.
  intros H st'. split; [apply fetchActivities_resume_completes|].
  subst st'. unfold step, handle, loads.
  rewrite (fetchActivities_resume_threw st net error H).
  destruct st; cbn. repeat split.
Qed.

Lemma load_failure_is_caught_witness :
  let st := step Sample.blank DOMContentLoaded in
  let st' := step st (ActivitiesSettled (Sample.garbled 200)) in
  completes (fetchActivities_resume (Sample.garbled 200)) st
  /\ activitiesList st' = [failed_to_load]
  /\ console st' =
       (console st ++
        [("Error fetching activities:",
          Exn "SyntaxError" "Unexpected token < in JSON at position 0")])%list
  /\ requests st' = requests st
  /\ loads st' = loads st
  /\ timers st' = timers st
  /\ alerts st' = alerts st
  /\ activitySelect st' = activitySelect st
  /\ messageDiv st' = messageDiv st
  /\ signupForm st' = signupForm st.
Proof.
  apply (load_failure_is_caught (step Sample.blank DOMContentLoaded)
           (Sample.garbled 200)
           (Exn "SyntaxError" "Unexpected token < in JSON at position 0")).
  right. exists 200. reflexivity.
Defined.

End LoadFailure.

(** ** Converting values to strings *)

Section Conversions.

(** ToString throws exactly on the documents that are not [printable], and
    the exception is always the same. *)
Lemma to_string_cases :
  forall j : json,
    (printable j = true /\ exists s, to_string j = inr s)
    \/ (printable j = false /\ to_string j = inl not_primitive).
Proof.
  fix IH 1.
  intros [ | [|] | numeral | s | items | fields].
  - left. split; [reflexivity | eexists; reflexivity].
  - left. split; [reflexivity | eexists; reflexivity].
  - left. split; [reflexivity | eexists; reflexivity].
  - left. split; [reflexivity | eexists; reflexivity].
  - left. split; [reflexivity | eexists; reflexivity].
  - cbn [printable to_string].
    set (elements :=
           fix elements (xs : list json) : exn + list string :=
             match xs with
             | [] => inr []
             | x :: rest =>
                 match (match x with JNull => inr "" | _ => to_string x end) with
                 | inl error => inl error
                 | inr s =>
                     match elements rest with
                     | inl error => inl error
                     | inr ss => inr (s :: ss)
                     end
                 end
             end).
    assert (H : (forallb printable items = true
                 /\ exists parts, elements items = inr parts)
                \/ (forallb printable items = false
                    /\ elements items = inl not_primitive)).
    { induction items as [|x items IHitems].
      - left. split; [reflexivity | eexists; reflexivity].
      - cbn [forallb elements].
        assert (Hx : (printable x = true
                      /\ exists s, (match x with JNull => inr "" | _ => to_string x end)
                                   = inr s)
                     \/ (printable x = false
                         /\ (match x with JNull => inr "" | _ => to_string x end)
                            = inl not_primitive)).
        { destruct (IH x) as [[Hp [s Hs]] | [Hp Hs]].
          - left. split; [exact Hp|].
            destruct x; try (exists s; exact Hs). eexists; reflexivity.
          - right. split; [exact Hp|].
            destruct x; try exact Hs. discriminate Hp. }
        destruct Hx as [[Hp [s Hs]] | [Hp Hs]]; rewrite Hp, Hs; cbn [andb].
        + destruct IHitems as [[Hq [parts Hparts]] | [Hq Hparts]];
            rewrite Hparts.
          * left. split; [exact Hq | eexists; reflexivity].
          * right. split; [exact Hq | reflexivity].
        + right. split; reflexivity. }
    destruct H as [[Hp [parts Hparts]] | [Hp Hparts]]; rewrite Hparts.
    + left. split; [exact Hp | eexists; reflexivity].
    + right. split; [exact Hp | reflexivity].
  - cbn [printable to_string].
    destruct (assoc "toString" fields).
    + right. split; reflexivity.
    + left. split; [reflexivity | eexists; reflexivity].
Qed.

Lemma text_of_cases (v : value) :
  (printable_value v = true /\ exists s, text_of v = inr s)
  \/ (printable_value v = false /\ text_of v = inl not_primitive).
Proof.
  destruct v as [j|]; [| left; split; [reflexivity | eexists; reflexivity]].
  destruct (to_string_cases j) as [[Hp [s Hs]] | [Hp Hs]].
  - left. split; [exact Hp|].
    destruct j; try (exists s; exact Hs). eexists; reflexivity.
  - right. split; [exact Hp|].
    destruct j; try exact Hs. discriminate Hp.
Qed.

Lemma text_of_printable (v : value) :
  printable_value v = true -> exists s, text_of v = inr s.
Proof.
  intros H. destruct (text_of_cases v) as [[_ Hs] | [Hp _]];
    [exact Hs | congruence].
Qed.

Lemma text_of_unprintable (v : value) :
  printable_value v = false -> text_of v = inl not_primitive.
Proof.
  intros H. destruct (text_of_cases v) as [[Hp _] | [_ Hs]];
    [congruence | exact Hs].
Qed.

(** A value that is falsy converts without throwing, and so does the
    fallback; [v || fallback] is printable exactly when a truthy [v] is. *)
Lemma printable_or_else (v : value) (fallback : string) :
  printable_value (or_else v fallback) =
  (negb (truthy v) || printable_value v)%bool.
Proof.
  unfold or_else. destruct (truthy v) eqn:Ht; [reflexivity|].
  reflexivity.
Qed.

End Conversions.

(** ** Signing up *)

Section Signup.

(** The ways into the [catch] block that need no conversion: the request
    is rejected, or the body does not decode. *)
Lemma submit_resume_rejected (st : page) (error : exn) :
  submit_resume (inl error) st =
  (set_console (console st ++ [("Error signing up:", error)])
     (set_messageDiv sign_up_failed st),
   inr tt).
Proof. destruct st; reflexivity. Qed.

Lemma submit_resume_undecoded (st : page) (code : Z) (error : exn) :
  submit_resume (inr (mkResponse code (inl error))) st =
  (set_console (console st ++ [("Error signing up:", error)])
     (set_messageDiv sign_up_failed st),
   inr tt).
Proof. destruct st; reflexivity. Qed.

(** The rest of the handler, by the way it leaves the [try] block. *)
Lemma submit_resume_outcome (st : page) (net : FetchResult json) :
  submit_resume net st =
  (match signup_outcome net with
   | Succeeded text =>
       set_timers (timers st ++ [hide_timer (clock st)])
         (set_requests (requests st ++ [load_request])
            (set_signupForm (reset (signupForm st))
               (set_messageDiv (mkMessageDiv text ["success"]) st)))
   | Refused text =>
       set_timers (timers st ++ [hide_timer (clock st)])
         (set_messageDiv (mkMessageDiv text ["error"]) st)
   | Threw error =>
       set_console (console st ++ [("Error signing up:", error)])
         (set_messageDiv sign_up_failed st)
   end,
   inr tt).
Proof.
  destruct net as [error | [code [error | result]]].
  - apply submit_resume_rejected.
  - apply submit_resume_undecoded.
  - unfold signup_outcome, submit_resume, submit_catch, try_catch, bind, await,
      messageDiv_assign_textContent.
    cbn [json_body].
    destruct (ok (mkResponse code (inr result))) eqn:Hok.
    + destruct (get_prop result "message") as [error | message].
      * destruct st; reflexivity.
      * unfold bind, await.
        destruct (text_of message) as [error | text];
          destruct st; reflexivity.
    + destruct (get_prop result "detail") as [error | detail].
      * destruct st; reflexivity.
      * unfold bind, await.
        destruct (text_of (or_else detail "An error occurred"))
          as [error | text];
          destruct st; reflexivity.
Qed.

(** Reading a property throws on [null] only. *)
Lemma get_prop_defined (result : json) (key : string) :
  result <> JNull -> exists v, get_prop result key = inr v.
Proof.
  destruct result; intros H; try (eexists; reflexivity). congruence.
Qed.

Lemma get_prop_null (key : string) :
  exists error, get_prop JNull key = inl error.
Proof. eexists; reflexivity. Qed.

(** The submit handler never lets an exception out. *)
Lemma submit_resume_completes (st : page) (net : FetchResult json) :
  completes (submit_resume net) st.
Proof.
  unfold completes. now rewrite submit_resume_outcome.
Qed.

Lemma step_SignupSettled (st : page) (net : FetchResult json) :
  step st (SignupSettled net) =
  match signup_outcome net with
  | Succeeded text =>
      set_timers (timers st ++ [hide_timer (clock st)])
        (set_requests (requests st ++ [load_request])
           (set_signupForm (reset (signupForm st))
              (set_messageDiv (mkMessageDiv text ["success"]) st)))
  | Refused text =>
      set_timers (timers st ++ [hide_timer (clock st)])
        (set_messageDiv (mkMessageDiv text ["error"]) st)
  | Threw error =>
      set_console (console st ++ [("Error signing up:", error)])
        (set_messageDiv sign_up_failed st)
  end.
Proof.
  unfold step, handle. now rewrite submit_resume_outcome.
Qed.

(** The outcome of an answer with a status in 200-299. *)
Lemma signup_outcome_ok (code : Z) (result : json) (message : value) :
  ok (mkResponse code (@inr exn json result)) = true ->
  get_prop result "message" = inr message ->
  signup_outcome (inr (mkResponse code (inr result))) =
  match text_of message with
  | inr text => Succeeded text
  | inl error => Threw error
  end.
Proof.
  intros Hok Hget. unfold signup_outcome. cbn [json_body].
  rewrite Hok, Hget. reflexivity.
Qed.

(** The outcome of an answer with any other status. *)
Lemma signup_outcome_not_ok (code : Z) (result : json) (detail : value) :
  ok (mkResponse code (@inr exn json result)) = false ->
  get_prop result "detail" = inr detail ->
  signup_outcome (inr (mkResponse code (inr result))) =
  match text_of (or_else detail "An error occurred") with
  | inr text => Refused text
  | inl error => Threw error
  end.
Proof.
  intros Hok Hget. unfold signup_outcome. cbn [json_body].
  rewrite Hok, Hget. reflexivity.
Qed.

Lemma signup_outcome_unreadable (code : Z) (result : json) (error : exn) :
  get_prop result
    (if ok (mkResponse code (@inr exn json result)) then "message" else "detail")
    = inl error ->
  signup_outcome (inr (mkResponse code (inr result))) = Threw error.
Proof.
  intros Hget. unfold signup_outcome. cbn [json_body].
  destruct (ok (mkResponse code (inr result))); now rewrite Hget.
Qed.

End Signup.

(** ** Timers *)

Section Timers.

Lemma classList_contains_add (tok : string) (cl : list string) :
  classList_contains tok (classList_add tok cl) = true.
Proof.
  unfold classList_add.
  destruct (classList_contains tok cl) eqn:E; [assumption|].
  unfold classList_contains. rewrite existsb_app. cbn.
  rewrite String.eqb_refl. now rewrite orb_true_r.
Qed.

Lemma hidden_idempotent (st : page) : hidden (hidden st) = hidden st.
Proof.
  unfold hidden, after, messageDiv_classList_add, modify.
  destruct st as [al sel f [text cl] rq tm ck co al' ls].
  cbn -[classList_add].
  unfold classList_add at 1. rewrite classList_contains_add. reflexivity.
Qed.

Lemma message_visible_hidden (st : page) : message_visible (hidden st) = false.
Proof.
  unfold message_visible, hidden, after, messageDiv_classList_add, modify.
  destruct st as [al sel f [text cl] rq tm ck co al' ls].
  cbn -[classList_add classList_contains].
  now rewrite classList_contains_add.
Qed.

(** Running the due callbacks hides the message as soon as there is one. *)
Lemma forEach_run_callback (fired : list Timer) (st : page) :
  forEach fired (fun tm => run_callback (callback tm)) st =
  (match fired with [] => st | _ :: _ => hidden st end, inr tt).
Proof.
  revert st.
  induction fired as [|[d []] fired IH]; intros st; [reflexivity|].
  cbn [forEach]. unfold bind.
  change (run_callback (callback {| due := d; callback := HideMessage |}) st)
    with (hidden st, @inr exn unit tt).
  cbv beta iota. rewrite IH. destruct fired; [reflexivity|].
  now rewrite hidden_idempotent.
Qed.

Lemma existsb_filter {A : Type} (f : A -> bool) (xs : list A) :
  existsb f xs = match filter f xs with [] => false | _ :: _ => true end.
Proof.
  induction xs as [|x xs IH]; cbn; [reflexivity|].
  destruct (f x); [reflexivity | exact IH].
Qed.

(** Time passing: the queue loses its due timers, and the message is hidden
    when one of them was due. *)
Lemma step_Elapsed (st : page) (dt : Z) :
  step st (Elapsed dt) =
  if some_timer_due dt st then hidden (later dt st) else later dt st.
Proof.
  unfold step, handle, elapse. rewrite forEach_run_callback.
  unfold some_timer_due. rewrite existsb_filter. cbn [fst].
  fold (later dt st).
  destruct (filter (is_due (clock st + dt)) (timers st)); reflexivity.
Qed.

Lemma message_visible_Elapsed (st : page) (dt : Z) :
  message_visible (step st (Elapsed dt)) =
  (message_visible st && negb (some_timer_due dt st))%bool.
Proof.
  rewrite step_Elapsed.
  destruct (some_timer_due dt st).
  - rewrite message_visible_hidden. now rewrite andb_false_r.
  - rewrite andb_true_r. destruct st; reflexivity.
Qed.

Lemma textContent_Elapsed (st : page) (dt : Z) :
  textContent (messageDiv (step st (Elapsed dt))) = textContent (messageDiv st).
Proof.
  rewrite step_Elapsed.
  destruct (some_timer_due dt st); destruct st; reflexivity.
Qed.

(** No callback re-arms a timer: the queue only shrinks as time passes. *)
Lemma timers_Elapsed (st : page) (dt : Z) :
  timers (step st (Elapsed dt)) =
  filter (fun tm => negb (is_due (clock st + dt) tm)) (timers st).
Proof.
  rewrite step_Elapsed.
  destruct (some_timer_due dt st); destruct st; reflexivity.
Qed.

End Timers.

(** ** The status message *)

Section StatusMessage.

Lemma some_timer_due_after_signup (st : page) (dt : Z) (more : page) :
  timers more = (timers st ++ [hide_timer (clock st)])%list ->
  clock more = clock st ->
  some_timer_due dt more = (some_timer_due dt st || (5000 <=? dt))%bool.
Proof.
  intros Ht Hc. unfold some_timer_due. rewrite Ht, Hc, existsb_app.
  cbn [existsb]. rewrite orb_false_r. f_equal.
  unfold is_due, hide_timer. cbn [due].
  destruct (Z.leb_spec (clock st + 5000) (clock st + dt));
    destruct (Z.leb_spec 5000 dt); try reflexivity; lia.
Qed.

(** C9.  The body is decoded before the status is looked at: whatever the
    status, a body that does not decode sends the handler to its [catch]
    block.  The fixed failure text is shown with the class [error], the cause
    is logged, the form keeps its values, no load is started and no timer is
    set. *)
Theorem undecodable_body_takes_catch (st : page) (code : Z) (error : exn) :
  let net : FetchResult json := inr (mkResponse code (inl error)) in
  let st' := step st (SignupSettled net) in
  completes (submit_resume net) st
  /\ messageDiv st' = sign_up_failed
  /\ message_visible st' = true
  /\ console st' = (console st ++ [("Error signing up:", error)])%list
  /\ signupForm st' = signupForm st
  /\ requests st' = requests st
  /\ loads st' = loads st
  /\ timers st' = timers st
  /\ clock st' = clock st.
Proof.
  cbv zeta. split; [apply submit_resume_completes|].
  unfold step, handle, loads. rewrite submit_resume_undecoded.
  destruct st; cbn. repeat split.
Qed.


(** C5, as the script has it.  When the sign-up request completes with a
    2xx status and a decoded body other than [null] (so that its [message]
    property can be read) whose [message], if it has one, converts to a
    string, the text shown is that string -- the string itself for a string,
    the empty text when the body has no [message] -- with the class [success];
    the form is reset; and [fetchActivities] is called exactly once. *)
Theorem successful_signup
        (st : page) (code : Z) (result : json) (message : value) :
  ok (mkResponse code (@inr exn json result)) = true ->
  get_prop result "message" = inr message ->
  printable_value message = true ->
  let net : FetchResult json := inr (mkResponse code (inr result)) in
  let st' := step st (SignupSettled net) in
  exists text,
    text_of message = inr text
    /\ (forall s, message = Some (JStr s) -> text = s)
    /\ (message = None -> text = "")
    /\ completes (submit_resume net) st
    /\ messageDiv st' = mkMessageDiv text ["success"]
    /\ message_visible st' = true
    /\ signupForm st' = reset (signupForm st)
    /\ requests st' = (requests st ++ [load_request])%list
    /\ loads st' = S (loads st).
Proof.
  intros Hok Hget Hprint. cbv zeta.
  destruct (text_of_printable message Hprint) as [text Htext].
  exists text. split; [exact Htext|].
  split; [intros s ->; cbn in Htext; congruence|].
  split; [intros ->; cbn in Htext; congruence|].
  split; [apply submit_resume_completes|].
  rewrite step_SignupSettled, (signup_outcome_ok code result message Hok Hget).
  rewrite Htext. unfold loads.
  destruct st; cbn [fst set_timers set_requests set_signupForm
    set_messageDiv messageDiv signupForm requests].
  repeat split.
  rewrite filter_app, length_app. cbn. lia.
Qed.

Lemma successful_signup_witness :
  let st := run [Typed "b@x.com" "Chess Club"; Submit] Sample.loaded in
  let net : FetchResult json := Sample.answer 200 Sample.signed_up in
  let st' := step st (SignupSettled net) in
  exists text,
    text_of (Some (JStr "Signed up")) = inr text
    /\ (forall s, Some (JStr "Signed up") = Some (JStr s) -> text = s)
    /\ (Some (JStr "Signed up") = None -> text = "")
    /\ completes (submit_resume net) st
    /\ messageDiv st' = mkMessageDiv text ["success"]
    /\ message_visible st' = true
    /\ signupForm st' = reset (signupForm st)
    /\ requests st' = (requests st ++ [load_request])%list
    /\ loads st' = S (loads st).
Proof.
  apply (successful_signup
           (run [Typed "b@x.com" "Chess Club"; Submit] Sample.loaded)
           200 Sample.signed_up (Some (JStr "Signed up")));
    reflexivity.
Defined.

(** C5 as stated fails on a 2xx answer whose JSON body is [null]: reading
    [result.message] throws, so the typed form is kept, no load is started and
    the failure text is shown.  It fails in the same way on a 2xx answer whose
    [message] is an object with an own [toString] property, which the
    [textContent] setter cannot convert. *)
Lemma null_body_is_not_a_success :
  let st := run [Typed "b@x.com" "Chess Club"; Submit] Sample.loaded in
  let st' := step st (SignupSettled (Sample.answer 200 JNull)) in
  let odd := JObj [("message", JObj [("toString", JNum "1")])] in
  let st'' := step st (SignupSettled (Sample.answer 200 odd)) in
  (ok (mkResponse 200 (@inr exn json JNull)) = true
   /\ signupForm st' = signupForm st
   /\ signupForm st' <> reset (signupForm st)
   /\ loads st' = loads st
   /\ loads st' <> S (loads st)
   /\ messageDiv st' = sign_up_failed)
  /\ (signupForm st'' = signupForm st
      /\ signupForm st'' <> reset (signupForm st)
      /\ loads st'' = loads st
      /\ messageDiv st'' = sign_up_failed).
Proof.
  cbv zeta. repeat split; try reflexivity; vm_compute; discriminate.
Qed.

(** C4, as the script has it.  When the sign-up request completes with a
    status outside 200-299, the form keeps its values, no load is started and
    the message is visible with the class [error].  Its text is the [detail]
    property of the decoded body when that is a non-empty string, and more
    generally the string that a truthy [detail] converts to; the fallback
    [An error occurred] when [detail] is missing or falsy; and the text of the
    [catch] block when the body does not decode, is [null], or holds a truthy
    [detail] that cannot be converted to a string. *)
Theorem failed_signup (st : page) (r : Response json) :
  ok r = false ->
  let st' := step st (SignupSettled (inr r)) in
  completes (submit_resume (inr r)) st
  /\ signupForm st' = signupForm st
  /\ requests st' = requests st
  /\ loads st' = loads st
  /\ classList (messageDiv st') = ["error"]
  /\ message_visible st' = true
  /\ (forall fields s,
        json_body r = inr (JObj fields) ->
        assoc "detail" fields = Some (JStr s) -> s <> "" ->
        textContent (messageDiv st') = s)
  /\ (forall result detail,
        json_body r = inr result ->
        get_prop result "detail" = inr detail ->
        truthy detail = false ->
        textContent (messageDiv st') = "An error occurred")
  /\ (forall result detail text,
        json_body r = inr result ->
        get_prop result "detail" = inr detail ->
        truthy detail = true ->
        text_of detail = inr text ->
        textContent (messageDiv st') = text)
  /\ (forall result detail,
        json_body r = inr result ->
        get_prop result "detail" = inr detail ->
        truthy detail = true ->
        printable_value detail = false ->
        messageDiv st' = sign_up_failed)
  /\ (forall result error,
        json_body r = inr result ->
        get_prop result "detail" = inl error ->
        messageDiv st' = sign_up_failed)
  /\ (forall error,
        json_body r = inl error -> messageDiv st' = sign_up_failed).
Proof.
  intros Hok. cbv zeta.
  split; [apply submit_resume_completes|].
  rewrite step_SignupSettled. unfold loads.
  destruct r as [code [error | result]].
  - cbn [signup_outcome json_body].
    destruct st; cbn. repeat split; intros; try discriminate; reflexivity.
  - destruct (get_prop result "detail") as [error | detail] eqn:Hget.
    + rewrite (signup_outcome_unreadable code result error)
        by (now rewrite Hok).
      destruct st; cbn [fst set_console set_messageDiv messageDiv signupForm
        requests json_body].
      repeat split; try reflexivity.
      * intros fields s [= ->]. discriminate.
      * intros result' detail [= <-] H'. congruence.
      * intros result' detail text [= <-] H'. congruence.
    + rewrite (signup_outcome_not_ok code result detail Hok Hget).
      unfold or_else.
      destruct (truthy detail) eqn:Ht.
      * destruct (text_of_cases detail) as [[Hp [text Htext]] | [Hp Htext]];
          rewrite Htext;
          destruct st; cbn [fst set_timers set_console set_messageDiv messageDiv
            signupForm requests json_body classList textContent
            sign_up_failed message_visible].
        -- repeat split; try reflexivity.
           ++ intros fields s [= ->] Hs Hne. cbn in Hget. injection Hget as <-.
              rewrite Hs in Htext. cbn in Htext. congruence.
           ++ intros result' detail' [= <-] H'. congruence.
           ++ intros result' detail' text' [= <-] H' _ Ht'. congruence.
           ++ intros result' detail' [= <-] H' _ Hp'. congruence.
           ++ intros result' error [= <-] H'. congruence.
           ++ intros error [=].
        -- repeat split; try reflexivity.
           ++ intros fields s [= ->] Hs Hne. cbn in Hget. injection Hget as <-.
              rewrite Hs in Hp. discriminate.
           ++ intros result' detail' [= <-] H'. congruence.
           ++ intros result' detail' text' [= <-] H' _ Ht'. congruence.
      * cbn [text_of to_string].
        destruct st; cbn [fst set_timers set_messageDiv messageDiv signupForm
          requests json_body classList textContent].
        repeat split; try reflexivity.
        -- intros fields s [= ->] Hs Hne. cbn in Hget. injection Hget as <-.
           rewrite Hs in Ht. cbn in Ht.
           destruct (String.eqb_spec s ""); [contradiction | discriminate].
        -- intros result' detail' text' [= <-] H'. congruence.
        -- intros result' detail' [= <-] H'. congruence.
        -- intros result' error [= <-] H'. congruence.
        -- intros error [=].
Qed.

Lemma failed_signup_witness :
  let st := run [Typed "a@x.com" "Chess Club"; Submit] Sample.loaded in
  let r := mkResponse 400 (inr (JObj [("detail", JStr "Already signed up")])) in
  let st' := step st (SignupSettled (inr r)) in
  signupForm st' = signupForm st
  /\ loads st' = loads st
  /\ textContent (messageDiv st') = "Already signed up".
Proof.
  cbv zeta.
  pose proof
    (failed_signup
       (run [Typed "a@x.com" "Chess Club"; Submit] Sample.loaded)
       (mkResponse 400 (inr (JObj [("detail", JStr "Already signed up")])))
       eq_refl) as H.
  cbv zeta in H.
  destruct H as (_ & Hform & _ & Hloads & _ & _ & Htext & _).
  split; [exact Hform | split; [exact Hloads |]].
  apply (Htext [("detail", JStr "Already signed up")] "Already signed up");
    [reflexivity | reflexivity | discriminate].
Defined.

(** C4 as stated fails when [detail] is present and empty: the fallback is
    shown, not the field.  It also fails when the body does not decode: the
    text of the [catch] block is shown, which is not the fallback used for a
    missing [detail]. *)
Lemma empty_detail_shows_fallback :
  let st := run [Typed "a@x.com" "Chess Club"; Submit] Sample.loaded in
  let fields := [("detail", JStr "")] in
  let st' := step st (SignupSettled (Sample.answer 400 (JObj fields))) in
  let st'' := step st (SignupSettled (Sample.garbled 500)) in
  ok (mkResponse 400 (@inr exn json (JObj fields))) = false
  /\ assoc "detail" fields = Some (JStr "")
  /\ textContent (messageDiv st') = "An error occurred"
  /\ textContent (messageDiv st') <> ""
  /\ textContent (messageDiv st'') = "Failed to sign up. Please try again."
  /\ textContent (messageDiv st'') <> "An error occurred".
Proof.
  cbv zeta. repeat split; try reflexivity; vm_compute; discriminate.
Qed.

(** C3, as the script has it.  A message shown at the end of the [try]
    block -- the answer decoded to a body other than [null], and the field
    shown ([message] on a 2xx status, [detail] otherwise) converts to a
    string -- is visible, and one timer is added for it, due 5000 ms later;
    the timers already in the queue stay.  From then on the message is visible
    exactly as long as [dt] is below 5000 and no older timer has fallen due:
    every timer hides whatever message is on screen. *)
Theorem status_message_timer
        (st : page) (code : Z) (result : json) (shown : value) :
  get_prop result
    (if ok (mkResponse code (@inr exn json result)) then "message" else "detail")
    = inr shown ->
  printable_value shown = true ->
  let st' := step st (SignupSettled (inr (mkResponse code (inr result)))) in
  message_visible st' = true
  /\ timers st' = (timers st ++ [hide_timer (clock st)])%list
  /\ clock st' = clock st
  /\ (forall dt,
        message_visible (step st' (Elapsed dt)) =
        (negb (some_timer_due dt st) && (dt <? 5000))%bool)
  /\ (forall dt,
        textContent (messageDiv (step st' (Elapsed dt))) =
        textContent (messageDiv st')).
Proof.
  intros Hget Hprint. cbv zeta.
  set (st' := step st (SignupSettled (inr (mkResponse code (inr result))))).
  assert (Hst' : message_visible st' = true
                 /\ timers st' = (timers st ++ [hide_timer (clock st)])%list
                 /\ clock st' = clock st).
  { subst st'. rewrite step_SignupSettled.
    destruct (ok (mkResponse code (inr result))) eqn:Hok.
    - rewrite (signup_outcome_ok code result shown Hok Hget).
      destruct (text_of_printable shown Hprint) as [text ->].
      destruct st; cbn. repeat split.
    - rewrite (signup_outcome_not_ok code result shown Hok Hget).
      assert (Hp : printable_value (or_else shown "An error occurred") = true)
        by (rewrite printable_or_else, Hprint; apply orb_true_r).
      destruct (text_of_printable _ Hp) as [text ->].
      destruct st; cbn. repeat split. }
  destruct Hst' as (Hvis & Ht & Hc).
  repeat split; try assumption.
  - intros dt. rewrite message_visible_Elapsed, Hvis.
    rewrite (some_timer_due_after_signup st dt st' Ht Hc).
    cbn [andb]. rewrite negb_orb. f_equal.
    rewrite Z.ltb_antisym. reflexivity.
  - intros dt. apply textContent_Elapsed.
Qed.

Lemma status_message_timer_witness :
  let st' := step Sample.blank (SignupSettled (Sample.answer 200 Sample.signed_up)) in
  message_visible st' = true
  /\ timers st' = [hide_timer 0]
  /\ message_visible (step st' (Elapsed 4999)) = true
  /\ message_visible (step st' (Elapsed 5000)) = false.
Proof.
  cbv zeta.
  pose proof (status_message_timer Sample.blank 200 Sample.signed_up
                (Some (JStr "Signed up")) eq_refl eq_refl) as H.
  cbv zeta in H.
  destruct H as (Hvis & Ht & _ & Hdt & _).
  split; [exact Hvis | split; [exact Ht | split]]; rewrite Hdt; reflexivity.
Defined.

(** C3 as stated fails twice.  A second message shown 3000 ms after a first
    one is hidden by the first timer, 2000 ms after it appeared; and the
    message of the [catch] block has no timer, so it is still on screen after
    5000 ms and more. *)
Lemma new_message_does_not_reset_timer :
  let st1 :=
    run [SignupSettled
           (Sample.answer 400 (JObj [("detail", JStr "Already signed up")]));
         Elapsed 3000]
        Sample.blank in
  let st2 := step st1 (SignupSettled (Sample.answer 200 Sample.signed_up)) in
  let st3 := step Sample.blank (SignupSettled Sample.offline) in
  (message_visible st2 = true
   /\ clock st2 = 3000
   /\ timers st2 = [hide_timer 0; hide_timer 3000]
   /\ textContent (messageDiv (step st2 (Elapsed 2000))) = "Signed up"
   /\ message_visible (step st2 (Elapsed 2000)) = false)
  /\ (message_visible st3 = true
      /\ timers st3 = []
      /\ message_visible (step st3 (Elapsed 5000)) = true
      /\ message_visible (step st3 (Elapsed 3600000)) = true).
Proof. cbv zeta. repeat split; vm_compute; reflexivity. Qed.

End StatusMessage.

(** ** Encodings *)

Section Encodings.

Lemma percent_decode_char (c : ascii) (t : string) :
  percent_decode ((if unreserved c then String c "" else percent c) ++ t) =
  option_map (String c) (percent_decode t).
Proof.
  destruct c as [[] [] [] [] [] [] [] []]; cbv - [percent_decode];
    cbn [percent_decode]; cbv - [percent_decode];
    destruct (percent_decode t); reflexivity.
Qed.

(** Percent-decoding undoes the escaping. *)
Lemma percent_decode_percent_encode (s : string) :
  percent_decode (percent_encode s) = Some s.
Proof.
  induction s as [|c s IH]; [reflexivity|].
  cbn [percent_encode]. rewrite percent_decode_char, IH. reflexivity.
Qed.

Lemma percent_escaped_char (c : ascii) (t : string) :
  percent_escaped ((if unreserved c then String c "" else percent c) ++ t) =
  percent_escaped t.
Proof.
  destruct c as [[] [] [] [] [] [] [] []]; cbv - [percent_escaped];
    cbn [percent_escaped]; cbv - [percent_escaped]; reflexivity.
Qed.

(** The escaped text is made of component characters and well-formed
    escapes. *)
Lemma percent_escaped_percent_encode (s : string) :
  percent_escaped (percent_encode s) = true.
Proof.
  induction s as [|c s IH]; [reflexivity|].
  cbn [percent_encode]. now rewrite percent_escaped_char.
Qed.

Lemma url_safe_app (a b : string) :
  url_safe (a ++ b) = (url_safe a && url_safe b)%bool.
Proof.
  unfold url_safe.
  induction a as [|x a IH]; [reflexivity|].
  cbn - [component_char]. rewrite IH. now rewrite andb_assoc.
Qed.

Lemma url_safe_char (c : ascii) :
  url_safe (if unreserved c then String c "" else percent c) = true.
Proof. destruct c as [[] [] [] [] [] [] [] []]; vm_compute; reflexivity. Qed.

Lemma url_safe_percent_encode (s : string) :
  url_safe (percent_encode s) = true.
Proof.
  induction s as [|c s IH]; [reflexivity|].
  cbn [percent_encode]. now rewrite url_safe_app, url_safe_char, IH.
Qed.

(** The characters that the escaping leaves alone are exactly the component
    characters. *)
Lemma unreserved_component_char (c : ascii) :
  unreserved c = component_char c.
Proof. destruct c as [[] [] [] [] [] [] [] []]; vm_compute; reflexivity. Qed.

(** [encodeURIComponent] on a string without lone surrogate. *)
Lemma encodeURIComponent_well_formed (s : string) :
  lone_surrogate s = false -> encodeURIComponent s = inr (percent_encode s).
Proof. intros H. unfold encodeURIComponent. now rewrite H. Qed.

Lemma encodeURIComponent_lone_surrogate (s : string) :
  lone_surrogate s = true -> encodeURIComponent s = inl URIError.
Proof. intros H. unfold encodeURIComponent. now rewrite H. Qed.

Lemma signup_target_well_formed (activity email : string) :
  lone_surrogate activity = false -> lone_surrogate email = false ->
  signup_target activity email = inr (signup_url activity email).
Proof.
  intros Ha He. unfold signup_target, signup_url.
  now rewrite (encodeURIComponent_well_formed _ Ha),
    (encodeURIComponent_well_formed _ He).
Qed.

Lemma signup_target_lone_surrogate (activity email : string) :
  (lone_surrogate activity || lone_surrogate email)%bool = true ->
  signup_target activity email = inl URIError.
Proof.
  intros H. unfold signup_target, encodeURIComponent.
  destruct (lone_surrogate activity); [reflexivity|].
  cbn in H. now rewrite H.
Qed.

Lemma unregister_target_well_formed (activity : string) :
  lone_surrogate activity = false ->
  unregister_target activity = inr (unregister_url activity).
Proof.
  intros Ha. unfold unregister_target, unregister_url.
  now rewrite (encodeURIComponent_well_formed _ Ha).
Qed.

Lemma read_json_string_char (c : ascii) (t : string) :
  read_json_string (json_escape c ++ t) =
  option_map (fun dr => (String c (fst dr), snd dr)) (read_json_string t).
Proof.
  destruct c as [[] [] [] [] [] [] [] []]; cbv - [read_json_string];
    cbn [read_json_string]; cbv - [read_json_string];
    destruct (read_json_string t); reflexivity.
Qed.

Lemma hex_value_hex_digit (n : nat) :
  (n < 16)%nat -> hex_value (hex_digit false n) = Some n.
Proof.
  intros H.
  do 16 (destruct n as [|n]; [reflexivity|]). lia.
Qed.

Lemma read_json_string_u (h1 h2 h3 h4 : ascii) (t : string) :
  read_json_string
    (String "\" (String "u" (String h1 (String h2 (String h3 (String h4 t))))))
  = match hex_value h1, hex_value h2, hex_value h3, hex_value h4,
          read_json_string t with
    | Some a, Some b, Some c', Some d, Some dr =>
        Some (utf8_of_code (code_of_digits a b c' d) ++ fst dr, snd dr)
    | _, _, _, _, _ => None
    end.
Proof. reflexivity. Qed.

(** The code point named by the escape of a surrogate has the bytes of that
    surrogate, for every second and third byte in range. *)
Lemma surrogate_table :
  forallb
    (fun n2 =>
       forallb
         (fun n3 =>
            let low := ((n2 - 128) * 64 + (n3 - 128))%nat in
            String.eqb
              (utf8_of_code
                 (code_of_digits 13 (Nat.div low 256)
                    (Nat.modulo (Nat.div low 16) 16) (Nat.modulo low 16)))
              (String (ascii_of_nat 237)
                 (String (ascii_of_nat n2) (String (ascii_of_nat n3) ""))))
         (seq 128 64))
    (seq 160 32)
  = true.
Proof. vm_compute. reflexivity. Qed.

Lemma in_range_seq (lo hi : nat) (c : ascii) :
  in_range lo hi c = true -> In (nat_of_ascii c) (seq lo (S hi - lo)).
Proof.
  unfold in_range. intros H. apply andb_true_iff in H. destruct H as [H1 H2].
  apply Nat.leb_le in H1, H2. apply in_seq. lia.
Qed.

Lemma read_json_string_surrogate (c2 c3 : ascii) (t : string) :
  in_range 160 191 c2 = true -> in_range 128 191 c3 = true ->
  read_json_string (surrogate_escape c2 c3 ++ t) =
  option_map
    (fun dr =>
       (String (ascii_of_nat 237) (String c2 (String c3 (fst dr))), snd dr))
    (read_json_string t).
Proof.
  intros H2 H3.
  pose proof (in_range_seq 160 191 c2 H2) as I2.
  pose proof (in_range_seq 128 191 c3 H3) as I3.
  pose proof surrogate_table as T.
  rewrite forallb_forall in T. specialize (T _ I2).
  rewrite forallb_forall in T. specialize (T _ I3).
  cbv zeta in T. apply String.eqb_eq in T.
  rewrite !ascii_nat_embedding in T.
  unfold surrogate_escape.
  set (low := ((nat_of_ascii c2 - 128) * 64 + (nat_of_ascii c3 - 128))%nat) in *.
  assert (Hlow : (low < 4096)%nat).
  { unfold in_range in H2, H3.
    apply andb_true_iff in H2, H3. destruct H2 as [_ H2], H3 as [_ H3].
    apply Nat.leb_le in H2, H3. subst low. lia. }
  cbn [append]. rewrite read_json_string_u.
  change (hex_value "d") with (Some 13%nat).
  rewrite !hex_value_hex_digit.
  - rewrite T. destruct (read_json_string t) as [[d r]|]; reflexivity.
  - apply Nat.mod_upper_bound. lia.
  - apply Nat.mod_upper_bound. lia.
  - apply Nat.Div0.div_lt_upper_bound. lia.
Qed.

Lemma read_json_string_escape_all_upto (n : nat) :
  forall s t : string,
    (String.length s <= n)%nat ->
    read_json_string (json_escape_all s ++ dquote ++ t) = Some (s, t).
Proof.
  induction n as [|n IH]; intros s t Hlen.
  - destruct s; [reflexivity | cbn in Hlen; lia].
  - destruct s as [|c rest]; [reflexivity|].
    cbn [String.length] in Hlen.
    assert (Hone : read_json_string
                     ((json_escape c ++ json_escape_all rest) ++ dquote ++ t)
                   = Some (String c rest, t)).
    { rewrite append_assoc, read_json_string_char, IH by lia. reflexivity. }
    cbn [json_escape_all].
    destruct rest as [|c2 [|c3 rest']]; try exact Hone.
    destruct (surrogate c c2 c3) eqn:Hs; [| exact Hone].
    unfold surrogate in Hs.
    apply andb_true_iff in Hs. destruct Hs as [Hs H3].
    apply andb_true_iff in Hs. destruct Hs as [H1 H2].
    apply Nat.eqb_eq in H1.
    assert (Hc : c = ascii_of_nat 237)
      by (rewrite <- H1; symmetry; apply ascii_nat_embedding).
    subst c.
    rewrite append_assoc, read_json_string_surrogate by assumption.
    rewrite IH by (cbn [String.length] in Hlen; lia).
    reflexivity.
Qed.

(** Reading undoes the escaping of [JSON.stringify], lone surrogates
    included. *)
Lemma read_json_string_escape_all (s t : string) :
  read_json_string (json_escape_all s ++ dquote ++ t) = Some (s, t).
Proof. apply (read_json_string_escape_all_upto (String.length s)). lia. Qed.

Lemma strip_prefix_app (p t : string) : strip_prefix p (p ++ t) = Some t.
Proof.
  induction p as [|a p IH]; [reflexivity|].
  cbn. now rewrite Ascii.eqb_refl.
Qed.

Lemma stringify_email_layout (email : string) :
  stringify_email email =
  ("{" ++ dquote ++ "email" ++ dquote ++ ":" ++ dquote)
  ++ json_escape_all email ++ dquote ++ "}".
Proof.
  unfold stringify_email, json_quote.
  change (json_escape_all "email") with "email".
  rewrite !append_assoc. reflexivity.
Qed.

(** The body built by [JSON.stringify({ email })] reads back as [email]. *)
Lemma read_email_body_stringify (email : string) :
  read_email_body (stringify_email email) = Some email.
Proof.
  unfold read_email_body.
  rewrite stringify_email_layout, strip_prefix_app.
  rewrite read_json_string_escape_all. reflexivity.
Qed.

End Encodings.

(** ** Reading the targets back *)

Section Routes.

Lemma lacks_app (sep : ascii) (a b : string) :
  lacks sep (a ++ b) = (lacks sep a && lacks sep b)%bool.
Proof.
  unfold lacks. induction a as [|x a IH]; [reflexivity|].
  cbn. rewrite IH. now rewrite andb_assoc.
Qed.

(** A URL-safe text has no occurrence of a character that is neither a
    component character nor the escape sign. *)
Lemma url_safe_lacks (sep : ascii) (s : string) :
  (component_char sep || Ascii.eqb sep "%")%bool = false ->
  url_safe s = true -> lacks sep s = true.
Proof.
  intros Hsep. unfold url_safe, lacks.
  induction s as [|c s IH]; [reflexivity|].
  cbn - [component_char]. intros H.
  apply andb_true_iff in H. destruct H as [Hc Hs].
  rewrite (IH Hs), andb_true_r.
  destruct (Ascii.eqb_spec c sep) as [-> | Hne]; [congruence | reflexivity].
Qed.

Lemma split_at_lacks (sep : ascii) (x r : string) :
  lacks sep x = true -> split_at sep (x ++ String sep r) = Some (x, r).
Proof.
  unfold lacks. induction x as [|c x IH]; cbn.
  - intros _. now rewrite Ascii.eqb_refl.
  - intros H. apply andb_true_iff in H. destruct H as [Hc Hx].
    apply negb_true_iff in Hc. rewrite Hc, (IH Hx). reflexivity.
Qed.

Lemma query_value_lacks (s : string) :
  lacks "&" s = true -> lacks "#" s = true -> query_value s = s.
Proof.
  unfold lacks. induction s as [|c s IH]; [reflexivity|].
  cbn. intros Ha Hh.
  apply andb_true_iff in Ha. destruct Ha as [Hca Hsa].
  apply andb_true_iff in Hh. destruct Hh as [Hch Hsh].
  apply negb_true_iff in Hca, Hch. rewrite Hca, Hch. cbn.
  now rewrite (IH Hsa Hsh).
Qed.

Lemma encoded_lacks (sep : ascii) (s : string) :
  (component_char sep || Ascii.eqb sep "%")%bool = false ->
  lacks sep (percent_encode s) = true.
Proof.
  intros Hsep. apply url_safe_lacks; [exact Hsep|].
  apply url_safe_percent_encode.
Qed.

Lemma route_unregister_url (activity : string) :
  route_unregister (unregister_url activity) = Some activity.
Proof.
  unfold route_unregister, unregister_url.
  rewrite strip_prefix_app.
  change ("/unregister") with (String "/" "unregister").
  rewrite split_at_lacks by (now apply encoded_lacks).
  apply percent_decode_percent_encode.
Qed.

Lemma signup_url_layout (activity email : string) :
  signup_url activity email =
  ("/activities/" ++ percent_encode activity ++ "/signup")
  ++ String "?" ("email=" ++ percent_encode email).
Proof.
  unfold signup_url. rewrite !append_assoc. reflexivity.
Qed.

Lemma route_signup_url (activity email : string) :
  route_signup (signup_url activity email) = Some (activity, email).
Proof.
  unfold route_signup. rewrite signup_url_layout.
  rewrite split_at_lacks.
  2:{ rewrite !lacks_app, encoded_lacks by reflexivity. reflexivity. }
  rewrite strip_prefix_app.
  change ("/signup") with (String "/" "signup").
  rewrite split_at_lacks by (now apply encoded_lacks).
  rewrite strip_prefix_app.
  rewrite query_value_lacks by (now apply encoded_lacks).
  now rewrite !percent_decode_percent_encode.
Qed.

(** X17.  Two sign-ups address the same target only when they are for the
    same activity and the same e-mail. *)
Theorem signup_url_injective (a1 e1 a2 e2 : string) :
  signup_url a1 e1 = signup_url a2 e2 -> a1 = a2 /\ e1 = e2.
Proof.
  intros H.
  pose proof (route_signup_url a1 e1) as H1.
  rewrite H, route_signup_url in H1.
  now injection H1 as -> ->.
Qed.

Lemma signup_url_injective_witness :
  "Chess Club" = "Chess Club" /\ "a@x.com" = "a@x.com".
Proof.
  apply (signup_url_injective "Chess Club" "a@x.com" "Chess Club" "a@x.com").
  reflexivity.
Defined.

End Routes.

(** ** The requests *)

Section Requests.

Lemma submit_call_well_formed (st : page) :
  form_encodable (signupForm st) = true ->
  submit_call st =
  (set_requests (requests st ++ [signup_request (signupForm st)]) st, inr tt).
Proof.
  unfold form_encodable. intros H.
  apply andb_true_iff in H. destruct H as [Ha He].
  apply negb_true_iff in Ha, He.
  unfold submit_call, try_catch, bind, await.
  now rewrite (signup_target_well_formed _ _ Ha He).
Qed.

Lemma submit_call_lone_surrogate (st : page) :
  form_encodable (signupForm st) = false ->
  submit_call st =
  (set_console (console st ++ [("Error signing up:", URIError)])
     (set_messageDiv sign_up_failed st),
   inr tt).
Proof.
  unfold form_encodable. intros H.
  unfold submit_call, try_catch, bind, await.
  rewrite signup_target_lone_surrogate.
  - destruct st; reflexivity.
  - destruct (lone_surrogate (activity_value (signupForm st)));
      [reflexivity|].
    destruct (lone_surrogate (email_value (signupForm st)));
      [reflexivity | discriminate].
Qed.

Lemma unregisterParticipant_call_well_formed
      (st : page) (activity email : string) :
  lone_surrogate activity = false ->
  unregisterParticipant_call activity email st =
  (set_requests
     (requests st ++
      [mkRequest (unregister_url activity) "POST"
                 [("Content-Type", "application/json")]
                 (Some (stringify_email email))])
     st,
   inr tt).
Proof.
  intros Ha. unfold unregisterParticipant_call, try_catch, bind, await.
  now rewrite (unregister_target_well_formed _ Ha).
Qed.

Lemma unregisterParticipant_call_lone_surrogate
      (st : page) (activity email : string) :
  lone_surrogate activity = true ->
  unregisterParticipant_call activity email st =
  (set_alerts (alerts st ++ ["Error unregistering participant."]) st, inr tt).
Proof.
  intros Ha. unfold unregisterParticipant_call, try_catch, bind, await,
    unregister_target.
  now rewrite (encodeURIComponent_lone_surrogate _ Ha).
Qed.

(** C8, as the script has it.  As long as the activity holds no lone
    surrogate (and, for a sign-up, neither does the e-mail), so that
    [encodeURIComponent] does not throw:
    - the submit handler calls [fetch] once, with the method POST, no header
      and no body, on the string [/activities/{a}/signup?email={e}], where [a]
      and [e] are percent-escaped texts that decode to the activity and to the
      e-mail of the form, so that the string reads back as that activity and
      that e-mail;
    - [unregisterParticipant] calls [fetch] once, with the method POST and
      the header [Content-Type: application/json], on the string
      [/activities/{a}/unregister] with [a] as above, and with a body that is
      the JSON text of [{email}]: it reads back as the e-mail.
    The component characters are the ones left unescaped. *)
Theorem requests_sent (st : page) (activity email : string) :
  lone_surrogate activity = false ->
  (activity_value (signupForm st) = activity ->
   email_value (signupForm st) = email ->
   lone_surrogate email = false ->
   exists r a e,
     submit_call st = (set_requests (requests st ++ [r]) st, inr tt)
     /\ method r = "POST" /\ headers r = [] /\ body r = None
     /\ url r = "/activities/" ++ a ++ "/signup?email=" ++ e
     /\ percent_escaped a = true /\ percent_decode a = Some activity
     /\ percent_escaped e = true /\ percent_decode e = Some email
     /\ route_signup (url r) = Some (activity, email))
  /\ (exists r a text,
        unregisterParticipant_call activity email st =
          (set_requests (requests st ++ [r]) st, inr tt)
        /\ method r = "POST"
        /\ headers r = [("Content-Type", "application/json")]
        /\ body r = Some text
        /\ read_email_body text = Some email
        /\ url r = "/activities/" ++ a ++ "/unregister"
        /\ percent_escaped a = true /\ percent_decode a = Some activity
        /\ route_unregister (url r) = Some activity)
  /\ (forall c,
        component_char c = true ->
        encodeURIComponent (String c "") = inr (String c "")).
Proof.
  intros Ha. split; [|split].
  - intros Hact Hem He.
    exists (signup_request (signupForm st)),
      (percent_encode activity), (percent_encode email).
    split.
    { apply submit_call_well_formed. unfold form_encodable.
      now rewrite Hact, Hem, Ha, He. }
    unfold signup_request. rewrite Hact, Hem. cbn [method headers body url].
    repeat split.
    + apply percent_escaped_percent_encode.
    + apply percent_decode_percent_encode.
    + apply percent_escaped_percent_encode.
    + apply percent_decode_percent_encode.
    + apply route_signup_url.
  - exists (mkRequest (unregister_url activity) "POST"
                      [("Content-Type", "application/json")]
                      (Some (stringify_email email))),
      (percent_encode activity), (stringify_email email).
    split; [now apply unregisterParticipant_call_well_formed|].
    cbn [method headers body url].
    repeat split.
    + apply read_email_body_stringify.
    + apply percent_escaped_percent_encode.
    + apply percent_decode_percent_encode.
    + apply route_unregister_url.
  - intros c Hc. unfold encodeURIComponent. cbn [lone_surrogate orb].
    cbn [percent_encode]. rewrite unreserved_component_char, Hc. reflexivity.
Qed.

Lemma requests_sent_witness :
  let st := run [Typed "a b@x.com" "Chess Club"] Sample.loaded in
  (exists r a e,
     submit_call st = (set_requests (requests st ++ [r]) st, inr tt)
     /\ method r = "POST" /\ headers r = [] /\ body r = None
     /\ url r = "/activities/" ++ a ++ "/signup?email=" ++ e
     /\ percent_escaped a = true /\ percent_decode a = Some "Chess Club"
     /\ percent_escaped e = true /\ percent_decode e = Some "a b@x.com"
     /\ route_signup (url r) = Some ("Chess Club", "a b@x.com"))
  /\ (exists r a text,
        unregisterParticipant_call "Chess Club" "a b@x.com" st =
          (set_requests (requests st ++ [r]) st, inr tt)
        /\ method r = "POST"
        /\ headers r = [("Content-Type", "application/json")]
        /\ body r = Some text
        /\ read_email_body text = Some "a b@x.com"
        /\ url r = "/activities/" ++ a ++ "/unregister"
        /\ percent_escaped a = true /\ percent_decode a = Some "Chess Club"
        /\ route_unregister (url r) = Some "Chess Club").
Proof.
  cbv zeta.
  destruct (requests_sent (run [Typed "a b@x.com" "Chess Club"] Sample.loaded)
              "Chess Club" "a b@x.com" eq_refl) as (Hsign & Hunreg & _).
  split; [| exact Hunreg].
  apply Hsign; reflexivity.
Defined.

(** C8 as stated fails on a string that holds a lone surrogate:
    [encodeURIComponent] throws inside the [try] block, so no request is sent.
    The submit handler shows its failure text instead, and
    [unregisterParticipant] raises its alert. *)
Lemma lone_surrogate_sends_no_request :
  let st := run [Typed Sample.lone "Chess Club"] Sample.loaded in
  let st' := step st Submit in
  let st'' := after (unregisterParticipant_call Sample.lone "a@x.com") Sample.loaded in
  (email_value (signupForm st) = Sample.lone
   /\ listening st = true
   /\ requests st' = requests st
   /\ messageDiv st' = sign_up_failed)
  /\ (requests st'' = requests Sample.loaded
      /\ alerts st'' =
         (alerts Sample.loaded ++ ["Error unregistering participant."])%list).
Proof. cbv zeta. repeat split; vm_compute; reflexivity. Qed.

End Requests.

(** ** Unregistering *)

Section Unregister.

Context {A : Type}.

Lemma unregisterParticipant_resume_ok (st : page) (r : Response A) :
  ok r = true ->
  unregisterParticipant_resume (inr r) st =
  (set_requests (requests st ++ [load_request]) st, inr tt).
Proof.
  intros Hok. unfold unregisterParticipant_resume, try_catch, bind, await.
  rewrite Hok. reflexivity.
Qed.

Lemma unregisterParticipant_resume_not_ok (st : page) (r : Response A) :
  ok r = false ->
  unregisterParticipant_resume (inr r) st =
  (set_alerts (alerts st ++ ["Failed to unregister participant."]) st, inr tt).
Proof.
  intros Hok. unfold unregisterParticipant_resume, try_catch, bind, await.
  rewrite Hok. reflexivity.
Qed.

Lemma unregisterParticipant_resume_rejected (st : page) (error : exn) :
  unregisterParticipant_resume (@inl exn (Response A) error) st =
  (set_alerts (alerts st ++ ["Error unregistering participant."]) st, inr tt).
Proof. reflexivity. Qed.

(** C6.  When an unregister request settles: on a 2xx status
    [fetchActivities] is called and nothing is alerted; on any other status,
    and when the request is rejected, one alert is raised, no load is started,
    and the status message and the timers of the sign-up form are left as they
    were.  No exception leaves the routine. *)
Theorem unregister_outcomes (st : page) (net : FetchResult A) :
  let st' := after (unregisterParticipant_resume net) st in
  completes (unregisterParticipant_resume net) st
  /\ (forall r, net = inr r -> ok r = true ->
        requests st' = (requests st ++ [load_request])%list
        /\ loads st' = S (loads st)
        /\ alerts st' = alerts st)
  /\ (forall r, net = inr r -> ok r = false ->
        alerts st' = (alerts st ++ ["Failed to unregister participant."])%list
        /\ requests st' = requests st
        /\ loads st' = loads st
        /\ messageDiv st' = messageDiv st
        /\ timers st' = timers st)
  /\ (forall error, net = inl error ->
        alerts st' = (alerts st ++ ["Error unregistering participant."])%list
        /\ requests st' = requests st
        /\ loads st' = loads st
        /\ messageDiv st' = messageDiv st
        /\ timers st' = timers st).
Proof.
  cbv zeta. unfold completes, after, loads.
  destruct net as [error | r].
  - rewrite unregisterParticipant_resume_rejected.
    destruct st; cbn.
    repeat split; try discriminate; intros ? [= <-]; reflexivity.
  - destruct (ok r) eqn:Hok.
    + rewrite (unregisterParticipant_resume_ok st r Hok).
      destruct st; cbn [fst snd set_requests requests alerts].
      split; [reflexivity|]. split; [|split].
      * intros r' [= <-] _. repeat split.
        rewrite filter_app, length_app. cbn. lia.
      * intros r' [= <-] H. congruence.
      * intros error [=].
    + rewrite (unregisterParticipant_resume_not_ok st r Hok).
      destruct st; cbn.
      split; [reflexivity|]. split; [|split].
      * intros r' [= <-] H. congruence.
      * intros r' [= <-] _. repeat split.
      * intros error [=].
Qed.

End Unregister.

Lemma unregister_outcomes_witness :
  let st := run [DOMContentLoaded;
                 ActivitiesSettled (Sample.answer 200 Sample.roster);
                 Click (UnregisterParticipant "Chess Club" "a@x.com")]
                Sample.blank in
  let gone := after (unregisterParticipant_resume (Sample.answer 200 JNull)) st in
  let refused := after (unregisterParticipant_resume (Sample.answer 404 JNull)) st in
  let lost := after (unregisterParticipant_resume (@Sample.offline json)) st in
  (loads gone = S (loads st) /\ alerts gone = alerts st)
  /\ (alerts refused = (alerts st ++ ["Failed to unregister participant."])%list
      /\ loads refused = loads st
      /\ messageDiv refused = messageDiv st)
  /\ (alerts lost = (alerts st ++ ["Error unregistering participant."])%list
      /\ loads lost = loads st
      /\ messageDiv lost = messageDiv st).
Proof.
  cbv zeta.
  set (st := run [DOMContentLoaded;
                  ActivitiesSettled (Sample.answer 200 Sample.roster);
                  Click (UnregisterParticipant "Chess Club" "a@x.com")]
                 Sample.blank).
  split; [|split].
  - destruct (unregister_outcomes st (Sample.answer 200 JNull))
      as (_ & Hok & _ & _).
    destruct (Hok _ eq_refl eq_refl) as (_ & Hloads & Halerts).
    split; [exact Hloads | exact Halerts].
  - destruct (unregister_outcomes st (Sample.answer 404 JNull))
      as (_ & _ & Hno & _).
    destruct (Hno _ eq_refl eq_refl) as (Halerts & _ & Hloads & Hmsg & _).
    split; [exact Halerts | split; [exact Hloads | exact Hmsg]].
  - destruct (unregister_outcomes st (@Sample.offline json))
      as (_ & _ & _ & Hrej).
    destruct (Hrej _ eq_refl) as (Halerts & _ & Hloads & Hmsg & _).
    split; [exact Halerts | split; [exact Hloads | exact Hmsg]].
Defined.

(** ** One step of the page, event by event *)

Section Steps.

Lemma run_cons (ev : Event) (evs : list Event) (st : page) :
  run (ev :: evs) st = run evs (step st ev).
Proof. reflexivity. Qed.

Lemma run_app (evs1 evs2 : list Event) (st : page) :
  run (evs1 ++ evs2) st = run evs2 (run evs1 st).
Proof. unfold run. apply fold_left_app. Qed.

Lemma step_DOMContentLoaded (st : page) :
  step st DOMContentLoaded =
  set_requests (requests st ++ [load_request]) (set_listening true st).
Proof. reflexivity. Qed.

Lemma step_ActivitiesSettled (st : page) (net : FetchResult Roster) :
  step st (ActivitiesSettled net) =
  match net with
  | inr r =>
      match json_body r with
      | inr R =>
          set_activitySelect (activitySelect st ++ map option_of R)
            (set_activitiesList (map card_of R) st)
      | inl error =>
          set_console (console st ++ [("Error fetching activities:", error)])
            (set_activitiesList [failed_to_load] st)
      end
  | inl error =>
      set_console (console st ++ [("Error fetching activities:", error)])
        (set_activitiesList [failed_to_load] st)
  end.
Proof.
  unfold step, handle.
  destruct net as [error | [code [error | R]]]; cbn [json_body].
  - now rewrite (fetchActivities_resume_threw st _ error) by now left.
  - now rewrite (fetchActivities_resume_threw st _ error)
      by (right; now exists code).
  - now rewrite fetchActivities_resume_decoded.
Qed.

Lemma step_ActivitiesDecoded (st : page) (code : Z) (doc : Document) :
  step st (ActivitiesDecoded code doc) =
  match thrown doc with
  | None =>
      set_activitySelect (activitySelect st ++ map option_of (rendered doc))
        (set_activitiesList (map card_of (rendered doc)) st)
  | Some error =>
      set_console (console st ++ [("Error fetching activities:", error)])
        (set_activitiesList [failed_to_load]
           (set_activitySelect
              (activitySelect st ++ map option_of (rendered doc)) st))
  end.
Proof.
  unfold step, handle. now rewrite fetchActivities_continue_decoded.
Qed.

Lemma step_Typed (st : page) (email activity : string) :
  step st (Typed email activity) =
  set_signupForm
    (mkForm email (if has_option activity st then activity else "")
            (email_default (signupForm st)) (activity_default (signupForm st)))
    st.
Proof. reflexivity. Qed.

Lemma step_Submit (st : page) :
  step st Submit =
  if listening st then
    if form_encodable (signupForm st) then
      set_requests (requests st ++ [signup_request (signupForm st)]) st
    else
      set_console (console st ++ [("Error signing up:", URIError)])
        (set_messageDiv sign_up_failed st)
  else st.
Proof.
  unfold step, handle.
  destruct (listening st); [|reflexivity].
  destruct (form_encodable (signupForm st)) eqn:E.
  - now rewrite (submit_call_well_formed st E).
  - now rewrite (submit_call_lone_surrogate st E).
Qed.

Lemma step_Click (st : page) (activity email : string) :
  step st (Click (UnregisterParticipant activity email)) =
  if has_control (UnregisterParticipant activity email) st then
    if lone_surrogate activity then
      set_alerts (alerts st ++ ["Error unregistering participant."]) st
    else
      set_requests
        (requests st ++
         [mkRequest (unregister_url activity) "POST"
                    [("Content-Type", "application/json")]
                    (Some (stringify_email email))])
        st
  else st.
Proof.
  unfold step, handle.
  destruct (has_control (UnregisterParticipant activity email) st);
    [|reflexivity].
  destruct (lone_surrogate activity) eqn:E.
  - now rewrite (unregisterParticipant_call_lone_surrogate st activity email E).
  - now rewrite (unregisterParticipant_call_well_formed st activity email E).
Qed.

Lemma step_UnregisterSettled (st : page) (net : FetchResult json) :
  step st (UnregisterSettled net) =
  match net with
  | inr r =>
      if ok r then set_requests (requests st ++ [load_request]) st
      else set_alerts (alerts st ++ ["Failed to unregister participant."]) st
  | inl _ =>
      set_alerts (alerts st ++ ["Error unregistering participant."]) st
  end.
Proof.
  unfold step, handle.
  destruct net as [error | r]; [reflexivity|].
  destruct (ok r) eqn:Hok.
  - now rewrite (unregisterParticipant_resume_ok st r Hok).
  - now rewrite (unregisterParticipant_resume_not_ok st r Hok).
Qed.

(** The success branch is taken to its end exactly on the answers that
    [signup_succeeds] describes. *)
Lemma signup_outcome_Succeeded (net : FetchResult json) :
  signup_succeeds net = true <-> exists text, signup_outcome net = Succeeded text.
Proof.
  unfold signup_succeeds, signup_outcome.
  destruct net as [error | [code [error | result]]]; cbn [json_body].
  - split; [discriminate | intros [m H]; discriminate].
  - split; [discriminate | intros [m H]; discriminate].
  - destruct (ok (mkResponse code (inr result))) eqn:Hok.
    + destruct result as [ | b | n | s | items | fields];
        cbn [get_prop text_of andb];
        try (split; [intros _; eexists; reflexivity | reflexivity]).
      * split; [discriminate | intros [m H]; discriminate].
      * destruct (text_of_cases (assoc "message" fields))
          as [[Hp [text Htext]] | [Hp Htext]]; rewrite Hp, Htext.
        -- split; [intros _; eexists; reflexivity | reflexivity].
        -- split; [discriminate | intros [m H]; discriminate].
    + assert (Hno : forall text,
                 match get_prop result "detail" with
                 | inl error => Threw error
                 | inr detail =>
                     match text_of (or_else detail "An error occurred") with
                     | inl error => Threw error
                     | inr text => Refused text
                     end
                 end <> Succeeded text).
      { intros text.
        destruct (get_prop result "detail") as [error | detail];
          [discriminate|].
        destruct (text_of (or_else detail "An error occurred")); discriminate. }
      split.
      * destruct result; cbn [andb]; discriminate.
      * intros [text H]. now elim (Hno text).
Qed.

Lemma signup_outcome_not_Succeeded (net : FetchResult json) :
  signup_succeeds net = false ->
  (exists text, signup_outcome net = Refused text)
  \/ (exists error, signup_outcome net = Threw error).
Proof.
  intros H.
  destruct (signup_outcome net) as [text | text | error] eqn:E.
  - assert (signup_succeeds net = true)
      by (apply signup_outcome_Succeeded; now exists text).
    congruence.
  - left. now exists text.
  - right. now exists error.
Qed.

End Steps.

(** ** What a history of events leaves on the page *)

Section Histories.

(** Case analysis on one step: each event is rewritten with its equation and
    split into the branches of its handler. *)
Ltac step_cases st ev :=
  destruct ev
    as [ | net | code doc | email activity | | net | [activity email] | net | dt];
  [ rewrite step_DOMContentLoaded
  | rewrite step_ActivitiesSettled;
    destruct net as [error | [code [error | R]]]; cbn [json_body]
  | rewrite step_ActivitiesDecoded;
    destruct (thrown doc) as [error|] eqn:Hthrown
  | rewrite step_Typed
  | rewrite step_Submit;
    destruct (listening st) eqn:Hlisten;
    [destruct (form_encodable (signupForm st)) eqn:Hform|]
  | rewrite step_SignupSettled;
    destruct (signup_outcome net) as [text | text | error] eqn:Hout
  | rewrite step_Click;
    destruct (has_control (UnregisterParticipant activity email) st)
      eqn:Hcontrol;
    [destruct (lone_surrogate activity) eqn:Hlone|]
  | rewrite step_UnregisterSettled;
    destruct net as [error | r]; [ | destruct (ok r) eqn:Hok]
  | rewrite step_Elapsed; destruct (some_timer_due dt st) eqn:Hdue ];
  destruct st as [al sel f [shown cl] rq tm ck co alr ls].

Lemma activitySelect_step (st : page) (ev : Event) :
  activitySelect (step st ev) = (activitySelect st ++ options_added ev)%list.
Proof.
  step_cases st ev; cbn; now rewrite ?app_nil_r.
Qed.

Lemma alerts_step (st : page) (ev : Event) :
  not_unregistering ev -> alerts (step st ev) = alerts st.
Proof.
  intros H. step_cases st ev; try contradiction; reflexivity.
Qed.

Lemma is_load_POST (target : string) hs b :
  is_load (mkRequest target "POST" hs b) = false.
Proof. unfold is_load. cbn. apply andb_false_r. Qed.

Lemma loads_step (st : page) (ev : Event) :
  loads (step st ev) = (loads st + if triggers_load ev then 1 else 0)%nat.
Proof.
  assert (Hs : forall net text,
             signup_outcome net = Succeeded text ->
             signup_succeeds net = true)
    by (intros; apply signup_outcome_Succeeded; eauto).
  assert (Hn : forall net,
             (forall text, signup_outcome net <> Succeeded text) ->
             signup_succeeds net = false).
  { intros net H. destruct (signup_succeeds net) eqn:E; [|reflexivity].
    apply signup_outcome_Succeeded in E. destruct E as [m E].
    now elim (H m). }
  step_cases st ev; unfold loads; cbn [triggers_load];
    rewrite ?Hok, ?(Hs _ _ Hout),
      ?(Hn net ltac:(intros m; rewrite Hout; discriminate));
    cbn [requests set_requests set_timers set_signupForm set_messageDiv
           set_console set_alerts set_activitiesList set_activitySelect
           set_clock set_listening hidden later after fst
           messageDiv_classList_add modify signupForm signup_request];
    rewrite ?filter_app, ?length_app; cbn [filter];
    rewrite ?is_load_POST; cbn; lia.
Qed.

(** X1.  The selector only ever grows: after any history of events it holds
    the options it started with, followed by one option per entry that each
    decoded load rendered, in the order the answers arrived -- for a body that
    is not a roster, the entries before the one on which the loop threw.  No
    event removes or replaces an option. *)
Theorem selector_history (evs : list Event) (st : page) :
  activitySelect (run evs st) =
  (activitySelect st ++ flat_map options_added evs)%list.
Proof.
  revert st. induction evs as [|ev evs IH]; intros st.
  - cbn. now rewrite app_nil_r.
  - rewrite run_cons, IH, activitySelect_step. cbn [flat_map].
    now rewrite app_assoc.
Qed.

(** X2.  [fetchActivities] is called once when the page has loaded, once for
    every sign-up answered with a 2xx status and a decoded body other than
    [null] whose [message] converts to a string, once for every unregister
    answered with a 2xx status, and on no other event: a failed load is not
    retried and time passing starts no load. *)
Theorem loads_history (evs : list Event) (st : page) :
  loads (run evs st) = (loads st + List.length (filter triggers_load evs))%nat.
Proof.
  revert st. induction evs as [|ev evs IH]; intros st.
  - cbn. lia.
  - rewrite run_cons, IH, loads_step. cbn [filter].
    destruct (triggers_load ev); cbn [List.length]; lia.
Qed.

(** X3.  Alerts come from unregistering alone: a history without a click on
    a delete button and without a settled unregister request leaves the alerts
    as they were.  Failed loads and failed sign-ups never alert. *)
Theorem alerts_come_from_unregistering (evs : list Event) (st : page) :
  Forall not_unregistering evs -> alerts (run evs st) = alerts st.
Proof.
  revert st. induction evs as [|ev evs IH]; intros st H; [reflexivity|].
  inversion H; subst.
  rewrite run_cons, IH by assumption. now apply alerts_step.
Qed.

Lemma alerts_come_from_unregistering_witness :
  alerts
    (run [DOMContentLoaded;
          ActivitiesSettled Sample.offline;
          ActivitiesDecoded 404
            (Entries [("detail",
                       Misshaped
                         (Exn "TypeError"
                            "Cannot read properties of undefined (reading 'length')"))]);
          Typed Sample.lone "Chess Club";
          Submit;
          SignupSettled (Sample.garbled 500);
          Elapsed 6000]
         Sample.blank)
  = alerts Sample.blank.
Proof.
  apply (alerts_come_from_unregistering
           [DOMContentLoaded;
            ActivitiesSettled Sample.offline;
            ActivitiesDecoded 404
              (Entries [("detail",
                         Misshaped
                           (Exn "TypeError"
                              "Cannot read properties of undefined (reading 'length')"))]);
            Typed Sample.lone "Chess Club";
            Submit;
            SignupSettled (Sample.garbled 500);
            Elapsed 6000]
           Sample.blank).
  repeat constructor.
Defined.

End Histories.

(** ** The handlers as a whole *)

Section Handlers.

Lemma elapse_completes (st : page) (dt : Z) : completes (elapse dt) st.
Proof.
  unfold completes, elapse. now rewrite forEach_run_callback.
Qed.

Lemma unregisterParticipant_resume_completes
      (st : page) (net : FetchResult json) :
  completes (unregisterParticipant_resume net) st.
Proof.
  unfold completes.
  destruct net as [error | r]; [reflexivity|].
  destruct (ok r) eqn:Hok.
  - now rewrite (unregisterParticipant_resume_ok st r Hok).
  - now rewrite (unregisterParticipant_resume_not_ok st r Hok).
Qed.

(** X5.  No handler of the script lets an exception out.  The exceptions
    that can arise -- a rejected request, a body that does not decode, a
    decoded body that is [null] or is not shaped like a roster, a value that
    the [textContent] setter cannot convert, a string that
    [encodeURIComponent] refuses -- all arise inside a [try] block, and no
    [catch] block throws. *)
Theorem handlers_never_throw (ev : Event) (st : page) :
  completes (handle ev) st.
Proof.
  destruct ev
    as [ | net | code doc | email activity | | net | [activity email] | net | dt];
    cbn [handle].
  - reflexivity.
  - apply fetchActivities_resume_completes.
  - unfold completes. now rewrite fetchActivities_continue_decoded.
  - reflexivity.
  - unfold completes. destruct (listening st); [|reflexivity].
    destruct (form_encodable (signupForm st)) eqn:E.
    + now rewrite (submit_call_well_formed st E).
    + now rewrite (submit_call_lone_surrogate st E).
  - apply submit_resume_completes.
  - unfold completes.
    destruct (has_control (UnregisterParticipant activity email) st);
      [|reflexivity].
    destruct (lone_surrogate activity) eqn:E.
    + now rewrite (unregisterParticipant_call_lone_surrogate st activity email E).
    + now rewrite (unregisterParticipant_call_well_formed st activity email E).
  - apply unregisterParticipant_resume_completes.
  - apply elapse_completes.
Qed.

(** X6.  The status message becomes visible through the submit handler
    only, and hidden through a timer only.  Every settled sign-up, whatever
    its outcome, leaves the message visible, and so does a submission whose
    form holds a string that [encodeURIComponent] refuses; time passing hides
    it exactly when a pending timer falls due; no other event (loads, typing,
    a submission that sends its request, unregistering) shows or hides it. *)
Theorem message_visibility (st : page) (ev : Event) :
  message_visible (step st ev) =
  match ev with
  | SignupSettled _ => true
  | Submit =>
      (message_visible st
       || (listening st && negb (form_encodable (signupForm st))))%bool
  | Elapsed dt => (message_visible st && negb (some_timer_due dt st))%bool
  | _ => message_visible st
  end.
Proof.
  destruct ev
    as [ | net | code doc | email activity | | net | [activity email] | net | dt].
  - destruct st; reflexivity.
  - rewrite step_ActivitiesSettled.
    destruct net as [error | [code [error | R]]]; destruct st; reflexivity.
  - rewrite step_ActivitiesDecoded.
    destruct (thrown doc); destruct st; reflexivity.
  - destruct st; reflexivity.
  - rewrite step_Submit.
    destruct (listening st); [|now rewrite orb_false_r].
    destruct (form_encodable (signupForm st)).
    + rewrite orb_false_r. destruct st; reflexivity.
    + rewrite orb_true_r. destruct st; reflexivity.
  - rewrite step_SignupSettled.
    destruct (signup_outcome net); destruct st; reflexivity.
  - rewrite step_Click.
    destruct (has_control (UnregisterParticipant activity email) st);
      [|reflexivity].
    destruct (lone_surrogate activity); destruct st; reflexivity.
  - rewrite step_UnregisterSettled.
    destruct net as [error | r]; [| destruct (ok r)]; destruct st; reflexivity.
  - apply message_visible_Elapsed.
Qed.

(** X7.  A settled sign-up is all or nothing.  Either the answer has a 2xx
    status and a decoded body other than [null] whose [message] converts to a
    string, and then the message has the class [success], the form is reset
    and exactly one load is requested; or it has not, and then the message has
    the class [error], the form keeps its values and no request is sent.  In
    both cases the list, the selector and the alerts are untouched. *)
Theorem signup_all_or_nothing (st : page) (net : FetchResult json) :
  let st' := step st (SignupSettled net) in
  ((signup_succeeds net = true
    /\ classList (messageDiv st') = ["success"]
    /\ signupForm st' = reset (signupForm st)
    /\ requests st' = (requests st ++ [load_request])%list)
   \/
   (signup_succeeds net = false
    /\ classList (messageDiv st') = ["error"]
    /\ signupForm st' = signupForm st
    /\ requests st' = requests st))
  /\ activitiesList st' = activitiesList st
  /\ activitySelect st' = activitySelect st
  /\ alerts st' = alerts st.
Proof.
  cbv zeta. rewrite step_SignupSettled.
  destruct (signup_succeeds net) eqn:Hs.
  - apply signup_outcome_Succeeded in Hs. destruct Hs as [text ->].
    destruct st; cbn. split; [left|]; repeat split.
  - destruct (signup_outcome_not_Succeeded net Hs) as [[text ->] | [error ->]];
      destruct st; cbn; (split; [right|]; repeat split).
Qed.

Lemma activitiesList_step (st : page) (ev : Event) :
  activitiesList (step st ev) =
  match ev with
  | ActivitiesSettled net => rendering net
  | ActivitiesDecoded _ doc => rendering_of doc
  | _ => activitiesList st
  end.
Proof.
  destruct ev
    as [ | net | code doc | email activity | | net | [activity email] | net | dt].
  - destruct st; reflexivity.
  - rewrite step_ActivitiesSettled. unfold rendering.
    destruct net as [error | [code [error | R]]]; destruct st; reflexivity.
  - rewrite step_ActivitiesDecoded. unfold rendering_of.
    destruct (thrown doc); destruct st; reflexivity.
  - destruct st; reflexivity.
  - rewrite step_Submit.
    destruct (listening st); [|reflexivity].
    destruct (form_encodable (signupForm st)); destruct st; reflexivity.
  - rewrite step_SignupSettled.
    destruct (signup_outcome net); destruct st; reflexivity.
  - rewrite step_Click.
    destruct (has_control (UnregisterParticipant activity email) st);
      [|reflexivity].
    destruct (lone_surrogate activity); destruct st; reflexivity.
  - rewrite step_UnregisterSettled.
    destruct net as [error | r]; [| destruct (ok r)]; destruct st; reflexivity.
  - rewrite step_Elapsed.
    destruct (some_timer_due dt st); destruct st; reflexivity.
Qed.

Lemma activitiesList_run_from
      (evs : list Event) (st : page) (acc : option (list node))
      (base : list node) :
  activitiesList st =
    match acc with Some nodes => nodes | None => base end ->
  activitiesList (run evs st) =
    match
      fold_left
        (fun acc ev =>
           match ev with
           | ActivitiesSettled net => Some (rendering net)
           | ActivitiesDecoded _ doc => Some (rendering_of doc)
           | _ => acc
           end)
        evs acc
    with
    | Some nodes => nodes
    | None => base
    end.
Proof.
  revert st acc.
  induction evs as [|ev evs IH]; intros st acc H; [exact H|].
  rewrite run_cons. cbn [fold_left]. apply IH.
  rewrite activitiesList_step. destruct ev; try exact H; reflexivity.
Qed.

(** X8.  The list container is replaced wholesale by each settled load and
    touched by nothing else: after any history it holds exactly what the load
    that settled last put there -- the cards of its roster, or the failure
    notice alone when the request was rejected, the body did not decode or the
    loop threw on it -- and, when no load has settled, what it held at the
    start.  A slow answer that arrives late therefore overwrites a newer one.
    The counts of the rosters are taken within the safe integers. *)
Theorem list_shows_last_settled_load (evs : list Event) (st : page) :
  Forall safe_event evs ->
  activitiesList (run evs st) =
  match last_rendering evs with
  | Some nodes => nodes
  | None => activitiesList st
  end.
Proof.
  intros _. unfold last_rendering.
  apply (activitiesList_run_from evs st None (activitiesList st)).
  reflexivity.
Qed.

Lemma list_shows_last_settled_load_witness :
  activitiesList
    (run [DOMContentLoaded;
          ActivitiesSettled (Sample.answer 200 Sample.roster);
          Typed "b@x.com" "Chess Club";
          Submit;
          ActivitiesSettled Sample.offline]
         Sample.blank)
  = [failed_to_load].
Proof.
  apply (list_shows_last_settled_load
           [DOMContentLoaded;
            ActivitiesSettled (Sample.answer 200 Sample.roster);
            Typed "b@x.com" "Chess Club";
            Submit;
            ActivitiesSettled Sample.offline]
           Sample.blank).
  repeat constructor; unfold safe_integer; cbn; lia.
Defined.

(** X9.  Submitting is not guarded: once the handler is registered, and as
    long as the form holds strings that [encodeURIComponent] accepts, [n]
    submissions in a row, with no answer in between, send [n] identical
    requests built from the same form values, and change nothing else on the
    page (the form is neither cleared nor disabled, no message is shown). *)
Theorem repeated_submit_sends_again (n : nat) (st : page) :
  listening st = true ->
  form_encodable (signupForm st) = true ->
  run (repeat Submit n) st =
  set_requests (requests st ++ repeat (signup_request (signupForm st)) n) st.
Proof.
  revert st. induction n as [|n IH]; intros st Hl Hf.
  - destruct st; cbn. now rewrite app_nil_r.
  - cbn [repeat]. rewrite run_cons, step_Submit, Hl, Hf.
    rewrite IH by (destruct st; assumption).
    destruct st; cbn. now rewrite <- app_assoc.
Qed.

Lemma repeated_submit_sends_again_witness :
  let st := run [Typed "b@x.com" "Chess Club"] Sample.loaded in
  run (repeat Submit 3) st =
  set_requests (requests st ++ repeat (signup_request (signupForm st)) 3) st.
Proof.
  apply (repeated_submit_sends_again 3
           (run [Typed "b@x.com" "Chess Club"] Sample.loaded));
    reflexivity.
Defined.

(** X19.  A load whose body decodes but is not a roster all the way is
    caught half-way: the list shows the failure notice alone, the cause is
    logged, no request is sent again -- but the options of the entries that
    were rendered before the loop threw stay in the selector. *)
Theorem misshaped_load_keeps_options
        (st : page) (code : Z) (doc : Document) (error : exn) :
  thrown doc = Some error ->
  let st' := step st (ActivitiesDecoded code doc) in
  completes (handle (ActivitiesDecoded code doc)) st
  /\ activitiesList st' = [failed_to_load]
  /\ activitySelect st' =
       (activitySelect st ++ map option_of (rendered doc))%list
  /\ console st' = (console st ++ [("Error fetching activities:", error)])%list
  /\ requests st' = requests st
  /\ alerts st' = alerts st
  /\ messageDiv st' = messageDiv st.
Proof.
  intros H. cbv zeta.
  split; [unfold completes; cbn [handle];
          now rewrite fetchActivities_continue_decoded|].
  rewrite step_ActivitiesDecoded, H. destruct st; cbn. repeat split.
Qed.

Lemma misshaped_load_keeps_options_witness :
  let error :=
    Exn "TypeError" "Cannot read properties of undefined (reading 'length')" in
  let doc :=
    Entries [("Chess Club", Shaped Sample.chess);
             ("Broken", Misshaped error);
             ("Art Club", Shaped Sample.chess)] in
  let st' := step Sample.loaded (ActivitiesDecoded 200 doc) in
  activitiesList st' = [failed_to_load]
  /\ activitySelect st' =
       [Sample.placeholder; activity_option "Chess Club";
        activity_option "Chess Club"]
  /\ console st' = [("Error fetching activities:", error)].
Proof.
  cbv zeta.
  pose proof
    (misshaped_load_keeps_options Sample.loaded 200
       (Entries [("Chess Club", Shaped Sample.chess);
                 ("Broken",
                  Misshaped
                    (Exn "TypeError"
                       "Cannot read properties of undefined (reading 'length')"));
                 ("Art Club", Shaped Sample.chess)])
       (Exn "TypeError" "Cannot read properties of undefined (reading 'length')")
       eq_refl) as H.
  cbv zeta in H.
  destruct H as (_ & Hlist & Hsel & Hcon & _).
  split; [exact Hlist | split; [exact Hsel | exact Hcon]].
Defined.

End Handlers.

(** ** The timer queue *)

Section Queue.

Lemma in_window_later (now dt : Z) (tm : Timer) :
  0 <= dt -> in_window now tm -> is_due (now + dt) tm = false ->
  in_window (now + dt) tm.
Proof.
  unfold in_window, is_due. intros Hdt [Hlo Hhi] Hdue.
  apply Z.leb_gt in Hdue. lia.
Qed.


Lemma timers_in_window_step (st : page) (ev : Event) :
  timers_in_window st -> forward ev -> timers_in_window (step st ev).
Proof.
  unfold timers_in_window. intros Hw Hf.
  destruct ev
    as [ | net | code doc | email activity | | net | [activity email] | net | dt].
  - destruct st; exact Hw.
  - rewrite step_ActivitiesSettled.
    destruct net as [error | [code [error | R]]]; destruct st; exact Hw.
  - rewrite step_ActivitiesDecoded.
    destruct (thrown doc); destruct st; exact Hw.
  - destruct st; exact Hw.
  - rewrite step_Submit.
    destruct (listening st); [|exact Hw].
    destruct (form_encodable (signupForm st)); destruct st; exact Hw.
  - rewrite step_SignupSettled.
    assert (Hnew : Forall (in_window (clock st))
                          (timers st ++ [hide_timer (clock st)])).
    { apply Forall_app. split; [exact Hw|].
      constructor; [|constructor].
      unfold in_window, hide_timer. cbn [due]. lia. }
    destruct (signup_outcome net); destruct st; cbn in *; assumption.
  - rewrite step_Click.
    destruct (has_control (UnregisterParticipant activity email) st);
      [|exact Hw].
    destruct (lone_surrogate activity); destruct st; exact Hw.
  - rewrite step_UnregisterSettled.
    destruct net as [error | r]; [| destruct (ok r)]; destruct st; exact Hw.
  - cbn [forward] in Hf.
    assert (Hkept : Forall (in_window (clock st + dt))
                           (filter (fun tm => negb (is_due (clock st + dt) tm))
                                   (timers st))).
    { apply Forall_forall. intros tm Hin.
      apply filter_In in Hin. destruct Hin as [Hin Hnd].
      apply negb_true_iff in Hnd.
      apply in_window_later; [exact Hf | | exact Hnd].
      rewrite Forall_forall in Hw. now apply Hw. }
    rewrite step_Elapsed.
    destruct (some_timer_due dt st); destruct st; cbn in *; exact Hkept.
Qed.

Lemma timers_in_window_run (evs : list Event) (st : page) :
  timers_in_window st -> Forall forward evs -> timers_in_window (run evs st).
Proof.
  revert st. induction evs as [|ev evs IH]; intros st Hw Hf; [exact Hw|].
  rewrite run_cons. inversion Hf; subst.
  apply IH; [now apply timers_in_window_step | assumption].
Qed.

Lemma quiet_empties_queue (st : page) (dt : Z) :
  timers_in_window st -> 5000 <= dt -> timers (step st (Elapsed dt)) = [].
Proof.
  intros Hw Hdt. rewrite timers_Elapsed.
  unfold timers_in_window in Hw.
  induction Hw as [|tm tms Htm _ IH]; [reflexivity|].
  cbn [filter].
  replace (is_due (clock st + dt) tm) with true; [exact IH|].
  symmetry. unfold is_due. apply Z.leb_le. unfold in_window in Htm. lia.
Qed.

(** X10.  The timer queue never holds a stale or far-off timer.  From a page
    whose pending timers are all due within the next 5000 ms (an empty queue,
    for one), and as long as time does not run backwards, every history leaves
    only timers that are still to come and at most 5000 ms away; so 5000 ms
    without events always empties the queue. *)
Theorem timers_stay_in_window (evs : list Event) (st : page) :
  timers_in_window st ->
  Forall forward evs ->
  timers_in_window (run evs st)
  /\ forall dt, 5000 <= dt -> timers (step (run evs st) (Elapsed dt)) = [].
Proof.
  intros Hw Hf.
  pose proof (timers_in_window_run evs st Hw Hf) as Hrun.
  split; [exact Hrun|].
  intros dt Hdt. now apply quiet_empties_queue.
Qed.

Lemma timers_stay_in_window_witness :
  let evs :=
    [SignupSettled (Sample.answer 200 Sample.signed_up);
     Elapsed 3000;
     SignupSettled (Sample.answer 400 (JObj [("detail", JStr "Full")]));
     Elapsed 1000] in
  timers_in_window (run evs Sample.blank)
  /\ forall dt, 5000 <= dt ->
       timers (step (run evs Sample.blank) (Elapsed dt)) = [].
Proof.
  apply (timers_stay_in_window
           [SignupSettled (Sample.answer 200 Sample.signed_up);
            Elapsed 3000;
            SignupSettled (Sample.answer 400 (JObj [("detail", JStr "Full")]));
            Elapsed 1000]
           Sample.blank).
  - constructor.
  - repeat constructor; cbn; lia.
Defined.

End Queue.

(** ** What a card holds *)

Section Cards.


Lemma actions_rows (name : string) (ps : list string) :
  flat_map actions (map (participant_item name) ps) =
  map (UnregisterParticipant name) ps.
Proof.
  induction ps as [|e ps IH]; [reflexivity|].
  cbn [map flat_map]. rewrite IH, participant_item_children.
  unfold text_nodes. destruct (String.eqb e ""); reflexivity.
Qed.

Lemma participants_section_cases (name : string) (details : Activity) :
  participants_section name details =
  Elem "div" [("className", "participants-section")] None
    [Elem "strong" [] None [Text "Participants:"];
     match participants details with
     | [] =>
         Elem "span" [("className", "no-participants")] None
              [Text "No participants yet"]
     | _ :: _ =>
         Elem "ul" [("style.listStyleType", "none"); ("style.paddingLeft", "0")]
              None (map (participant_item name) (participants details))
     end].
Proof.
  destruct (participants details) as [|e es] eqn:E.
  - now apply participants_section_empty.
  - rewrite <- E. apply participants_section_rows. congruence.
Qed.



(** X13.  The participants section of a card, which the script builds
    element by element, holds exactly one delete button per participant, in
    roster order, each wired to unregister that participant from that
    activity, and no other control of the script; the section of an activity
    without participants holds none. *)
Theorem controls_of_a_section (name : string) (details : Activity) :
  actions (participants_section name details) =
  map (UnregisterParticipant name) (participants details).
Proof.
  rewrite participants_section_cases.
  cbn [actions flat_map app].
  destruct (participants details) as [|e es] eqn:E; [reflexivity|].
  cbn [actions]. rewrite actions_rows. now rewrite !app_nil_r.
Qed.

Lemma string_of_Z_negative (z : Z) :
  z < 0 -> exists digits, string_of_Z z = String "-" digits.
Proof.
  intros Hz. destruct z as [|p|p]; try lia.
  unfold string_of_Z. cbn [Z.to_int NilZero.string_of_int].
  eexists. reflexivity.
Qed.

(** X14.  The count of spots left is not clamped: when the roster lists more
    participants than [max_participants] (both counts within the safe
    integers), the availability line of the card shows a negative number,
    written with a minus sign. *)
Theorem overbooked_shows_negative
        (st : page) (code : Z) (R : Roster) (i : nat)
        (name : string) (details : Activity) :
  nth_error R i = Some (name, details) ->
  safe_activity details ->
  max_participants details < Z.of_nat (List.length (participants details)) ->
  exists digits src,
    nth_error
      (activitiesList
         (step st (ActivitiesSettled (inr (mkResponse code (inr R))))))
      i
    = Some (Elem "div" [("className", "activity-card")] None
              [Html src; participants_section name details])
    /\ contains ("<p><strong>Availability:</strong> -" ++ digits
                 ++ " spots left</p>") src
    /\ read_Z (String "-" digits) = Some (spots details)
    /\ spots details < 0.
Proof.
  intros Hi _ Hover.
  assert (Hneg : spots details < 0) by (unfold spots; lia).
  destruct (string_of_Z_negative (spots details) Hneg) as [digits Hd].
  exists digits, (card_template name details (spots details)).
  rewrite activitiesList_step. unfold rendering. cbn [json_body].
  rewrite nth_error_map, Hi. cbn [option_map]. unfold card_of. cbn [fst snd].
  rewrite activity_card_children. fold (spots details).
  split; [reflexivity|]. split; [|split; [|exact Hneg]].
  - pose proof (contains_availability_line name details (spots details)) as Hc.
    unfold availability_line in Hc. rewrite Hd in Hc. exact Hc.
  - rewrite <- Hd. apply read_string_of_Z.
Qed.

Lemma overbooked_shows_negative_witness :
  exists digits src,
    nth_error
      (activitiesList
         (step Sample.blank
            (ActivitiesSettled
               (Sample.answer 200
                  [("Chess Club", mkActivity "d" "s" 1 ["a@x.com"; "b@x.com"; "c@x.com"])]))))
      0
    = Some (Elem "div" [("className", "activity-card")] None
              [Html src;
               participants_section "Chess Club"
                 (mkActivity "d" "s" 1 ["a@x.com"; "b@x.com"; "c@x.com"])])
    /\ contains ("<p><strong>Availability:</strong> -" ++ digits
                 ++ " spots left</p>") src
    /\ read_Z (String "-" digits)
       = Some (spots (mkActivity "d" "s" 1 ["a@x.com"; "b@x.com"; "c@x.com"]))
    /\ spots (mkActivity "d" "s" 1 ["a@x.com"; "b@x.com"; "c@x.com"]) < 0.
Proof.
  apply (overbooked_shows_negative Sample.blank 200
           [("Chess Club", mkActivity "d" "s" 1 ["a@x.com"; "b@x.com"; "c@x.com"])]
           0 "Chess Club"
           (mkActivity "d" "s" 1 ["a@x.com"; "b@x.com"; "c@x.com"])).
  - reflexivity.
  - split; unfold safe_integer; cbn; lia.
  - cbn. lia.
Defined.

End Cards.

(** ** Error details that are not strings *)

Section Details.

Lemma to_string_plain_objects (items : list json) :
  forallb plain_object items = true ->
  to_string (JArr items) =
  inr (join "," (map (fun _ => "[object Object]") items)).
Proof.
  intros H. cbn [to_string].
  set (elements :=
         fix elements (xs : list json) : exn + list string :=
           match xs with
           | [] => inr []
           | x :: rest =>
               match (match x with JNull => inr "" | _ => to_string x end) with
               | inl error => inl error
               | inr s =>
                   match elements rest with
                   | inl error => inl error
                   | inr ss => inr (s :: ss)
                   end
               end
           end).
  assert (Hel : elements items = inr (map (fun _ => "[object Object]") items)).
  { induction items as [|x items IH]; [reflexivity|].
    cbn [forallb] in H. apply andb_true_iff in H. destruct H as [Hx Hitems].
    cbn [elements map]. rewrite (IH Hitems).
    destruct x as [ | b | n | s | xs | fields]; try discriminate.
    cbn [plain_object] in Hx. cbn [to_string].
    destruct (assoc "toString" fields); [discriminate | reflexivity]. }
  now rewrite Hel.
Qed.

(** X18.  An error [detail] that is a list of objects, as a validation error
    is reported, is not shown as readable text: when none of the objects has
    an own [toString] property, the message is one [[object Object]] per
    entry, separated by commas, and it is empty when the list is empty (an
    empty list is truthy, so the fallback is not used). *)
Theorem list_detail_is_not_readable
        (st : page) (code : Z) (fields : list (string * json))
        (items : list json) :
  ok (mkResponse code (@inr exn json (JObj fields))) = false ->
  assoc "detail" fields = Some (JArr items) ->
  forallb plain_object items = true ->
  let st' := step st (SignupSettled (inr (mkResponse code (inr (JObj fields))))) in
  textContent (messageDiv st') =
    join "," (map (fun _ => "[object Object]") items)
  /\ classList (messageDiv st') = ["error"].
Proof.
  intros Hok Hdetail Hobjs. cbv zeta.
  rewrite step_SignupSettled.
  rewrite (signup_outcome_not_ok code (JObj fields) (Some (JArr items)) Hok)
    by (cbn [get_prop]; now rewrite Hdetail).
  unfold or_else. cbn [truthy].
  change (text_of (Some (JArr items))) with (to_string (JArr items)).
  rewrite (to_string_plain_objects items Hobjs).
  destruct st; split; reflexivity.
Qed.

Lemma list_detail_is_not_readable_witness :
  let fields :=
    [("detail",
      JArr [JObj [("loc", JArr [JStr "query"; JStr "email"]);
                  ("msg", JStr "field required")];
            JObj [("msg", JStr "value is not a valid email address")]])] in
  let st' :=
    step Sample.blank (SignupSettled (Sample.answer 422 (JObj fields))) in
  textContent (messageDiv st') = "[object Object],[object Object]"
  /\ classList (messageDiv st') = ["error"].
Proof.
  apply (list_detail_is_not_readable Sample.blank 422
           [("detail",
             JArr [JObj [("loc", JArr [JStr "query"; JStr "email"]);
                         ("msg", JStr "field required")];
                   JObj [("msg", JStr "value is not a valid email address")]])]
           [JObj [("loc", JArr [JStr "query"; JStr "email"]);
                  ("msg", JStr "field required")];
            JObj [("msg", JStr "value is not a valid email address")]]);
    reflexivity.
Defined.

End Details.
